(** * Quick_Learn.py: a shallow embedding of the ZED capture script

    The script of [src/Quick_Learn.py] is one straight-line [__main__] block
    that drives three external collaborators: the camera SDK ([pyzed.sl]),
    NumPy ([np.savetxt]) and OpenCV ([cv2.circle], [cv2.imshow], ...).

    The embedding keeps the script as it is written: a program in a small
    state-and-exception monad over a [World] that holds the camera session,
    the [InitParameters] object, the four [sl.Mat] buffers and the log of
    every call the script issues.  The device (what [open] and [grab] answer,
    which frame the camera delivers) is a parameter of the run. *)

From Stdlib Require Import ZArith List String Ascii Bool Lia.
From Stdlib Require Import QArith Qround Qabs Qpower Lqa.
Import ListNotations.
Open Scope string_scope.
Open Scope Z_scope.

(** ** Python text primitives *)

Module PyText.

(** The character of a decimal digit [0..9]. *)
Definition digit_char (d : Z) : ascii := ascii_of_nat (48 + Z.to_nat d).

(** The decimal digits of a non-negative integer, most significant first;
    [acc] receives the digits already produced. *)
Fixpoint digits_fuel (fuel : nat) (n : Z) (acc : string) : string :=
  match fuel with
  | O => acc
  | S f =>
      let acc' := String (digit_char (n mod 10)) acc in
      if n <? 10 then acc' else digits_fuel f (n / 10) acc'
  end.

(** [str(n)] for [n >= 0]: a number below [2^k] has at most [k] digits. *)
Definition str_nat (n : Z) : string :=
  digits_fuel (S (Z.to_nat (Z.log2 n))) n "".

(** [str(n)] for a Python [int]. *)
Definition str_int (n : Z) : string :=
  if n <? 0 then "-" ++ str_nat (- n) else str_nat n.

(** Exactly [k] decimal digits of [n], zero padded on the left. *)
Fixpoint pad_digits (k : nat) (n : Z) : string :=
  match k with
  | O => ""
  | S k' => pad_digits k' (n / 10) ++ String (digit_char (n mod 10)) ""
  end.

(** [sep.join(parts)]. *)
Fixpoint join (sep : string) (parts : list string) : string :=
  match parts with
  | [] => ""
  | [p] => p
  | p :: rest => p ++ sep ++ join sep rest
  end.

(** [line.split(' ')]: the fields between single spaces, [cur] being the
    field under construction. *)
Fixpoint split_space_aux (s : string) (cur : string) : list string :=
  match s with
  | EmptyString => [cur]
  | String c rest =>
      if Ascii.eqb c " "%char
      then cur :: split_space_aux rest ""
      else split_space_aux rest (cur ++ String c "")
  end.

Definition split_space (s : string) : list string := split_space_aux s "".

(** The characters of a string. *)
Fixpoint chars (s : string) : list ascii :=
  match s with
  | EmptyString => []
  | String c rest => c :: chars rest
  end.

(** [int(s)] for a string of decimal digits, [acc] being the value read so
    far. *)
Fixpoint digits_value_aux (s : string) (acc : Z) : Z :=
  match s with
  | EmptyString => acc
  | String c rest =>
      digits_value_aux rest (10 * acc + (Z.of_nat (nat_of_ascii c) - 48))
  end.

Definition digits_value (s : string) : Z := digits_value_aux s 0.

Definition is_digit (c : ascii) : bool :=
  let n := nat_of_ascii c in (48 <=? n)%nat && (n <=? 57)%nat.

Definition no_space (s : string) : Prop := ~ In " "%char (chars s).

Definition all_digits (s : string) : Prop :=
  Forall (fun c => is_digit c = true) (chars s).

End PyText.

(** ** Floating-point values and their two decimal renderings

    A depth sample is a [numpy.float32]; [Mat.get_value] hands it back as a
    Python [float].  Widening is exact, so one representation serves both:
    not-a-number, an infinity, or the dyadic rational [m * 2^e].  All
    arithmetic below is exact arithmetic on [Q]. *)

Module PyFloat.
Import PyText.

Inductive float : Type :=
| F_nan
| F_inf (negative : bool)
| F_fin (m e : Z).

Definition is_nan (v : float) : bool :=
  match v with F_nan => true | _ => false end.

Definition is_finite (v : float) : bool :=
  match v with F_fin _ _ => true | _ => false end.

Definition pow2 (e : Z) : Q := Qpower (2 # 1) e.
Definition pow10 (k : Z) : Q := Qpower (10 # 1) k.

(** The magnitude [|m| * 2^e]. *)
Definition magnitude (m e : Z) : Q := (inject_Z (Z.abs m) * pow2 e)%Q.

Definition Qlt_bool (a b : Q) : bool := negb (Qle_bool b a).

(** Round to the nearest integer, ties to even. *)
Definition round_half_even (q : Q) : Z :=
  let f := Qfloor q in
  match Qcompare (q - inject_Z f)%Q (1 # 2)%Q with
  | Lt => f
  | Gt => f + 1
  | Eq => if Z.even f then f else f + 1
  end.

(** The [%.<prec>f] conversion of Python's [%] operator (what [np.savetxt]
    applies to every entry): the exact value rounded half-even to [prec]
    decimals, the sign kept even when the rounded magnitude is zero. *)
Definition format_f (prec : nat) (v : float) : string :=
  match v with
  | F_nan => "nan"
  | F_inf negative => if negative then "-inf" else "inf"
  | F_fin m e =>
      let p := 10 ^ Z.of_nat prec in
      let scaled := round_half_even (magnitude m e * inject_Z p)%Q in
      (if m <? 0 then "-" else "")
        ++ str_nat (scaled / p)
        ++ (match prec with
            | O => ""
            | S _ => "." ++ pad_digits prec (scaled mod p)
            end)
  end.

(** *** [repr(float)]: the shortest decimal that reads back as the same
    binary64 value *)

(** [2^binade <= |m * 2^e| < 2^(binade+1)] for [m <> 0]. *)
Definition binade (m e : Z) : Z := Z.log2 (Z.abs m) + e.

(** The exponent of the unit in the last place of a binary64 value. *)
Definition ulp_exponent (m e : Z) : Z := Z.max (binade m e - 52) (-1074).

Definition is_pow2 (a : Z) : bool := a =? 2 ^ Z.log2 a.

Definition significand_even (m e : Z) : bool :=
  Z.even (Qfloor (magnitude m e / pow2 (ulp_exponent m e))%Q).

(** Does the decimal [c] read back as [|m * 2^e|]?  It does when it lies
    within half a unit in the last place (a quarter below a power of two),
    the end points included exactly for an even significand. *)
Definition round_trips (m e : Z) (c : Q) : bool :=
  let v := magnitude m e in
  let u := ulp_exponent m e in
  let hi := (v + pow2 (u - 1))%Q in
  let lo := (v - (if is_pow2 (Z.abs m) && (-1022 <? binade m e)%Z
                  then pow2 (u - 2) else pow2 (u - 1)))%Q in
  if significand_even m e
  then Qle_bool lo c && Qle_bool c hi
  else Qlt_bool lo c && Qlt_bool c hi.

(** [floor (log10 q)] for [q > 0], searched downwards from [k]. *)
Fixpoint decimal_exponent (fuel : nat) (k : Z) (q : Q) : Z :=
  match fuel with
  | O => k
  | S f => if Qle_bool (pow10 k) q then k else decimal_exponent f (k - 1) q
  end.

(** The shortest digit string [d] (as an integer) with its power of ten [p]
    such that [d * 10^p] reads back as the value, trying [n], [n+1], ...
    significant digits; of the two [n]-digit neighbours that both read back,
    the nearer one.  Seventeen digits always suffice for a binary64. *)
Fixpoint shortest_digits (fuel : nat) (n : Z) (m e k : Z) : Z * Z :=
  let v := magnitude m e in
  let p := k - n + 1 in
  let lo := Qfloor (v / pow10 p)%Q in
  let c_lo := (inject_Z lo * pow10 p)%Q in
  let c_hi := (inject_Z (lo + 1) * pow10 p)%Q in
  match fuel with
  | O => (lo, p)
  | S f =>
      match round_trips m e c_lo, round_trips m e c_hi with
      | true, true =>
          match Qcompare (v - c_lo)%Q (c_hi - v)%Q with
          | Lt => (lo, p)
          | Gt => (lo + 1, p)
          | Eq => if Z.even lo then (lo, p) else (lo + 1, p)
          end
      | true, false => (lo, p)
      | false, true => (lo + 1, p)
      | false, false => shortest_digits f (n + 1) m e k
      end
  end.

(** Drop trailing zero digits: [d0 * 10^p = d * 10^(p+1)]. *)
Fixpoint strip_zeros (fuel : nat) (d p : Z) : Z * Z :=
  match fuel with
  | O => (d, p)
  | S f => if (d mod 10 =? 0) && negb (d =? 0)
           then strip_zeros f (d / 10) (p + 1) else (d, p)
  end.

Fixpoint zeros (n : nat) : string :=
  match n with O => "" | S n' => String "0"%char (zeros n') end.

(** [repr] of a finite value: positional notation when the decimal point
    falls within [-4 < decpt <= 16], exponent notation otherwise. *)
Definition repr_finite (m e : Z) : string :=
  if m =? 0 then "0.0" else
  let k := decimal_exponent 640 309 (magnitude m e) in
  let '(d, p) := shortest_digits 17 1 m e k in
  let '(d, p) := strip_zeros 17 d p in
  let ds := str_nat d in
  let n := Z.of_nat (String.length ds) in
  let decpt := n + p in
  (if m <? 0 then "-" else "") ++
  (if (decpt <=? -4) || (16 <? decpt) then
     let x := decpt - 1 in
     substring 0 1 ds
       ++ (if 1 <? n then "." ++ substring 1 (Z.to_nat (n - 1)) ds else "")
       ++ "e" ++ (if x <? 0 then "-" else "+")
       ++ (if Z.abs x <? 10 then "0" else "") ++ str_nat (Z.abs x)
   else if decpt <=? 0 then
     "0." ++ zeros (Z.to_nat (- decpt)) ++ ds
   else if decpt <? n then
     substring 0 (Z.to_nat decpt) ds
       ++ "." ++ substring (Z.to_nat decpt) (Z.to_nat (n - decpt)) ds
   else
     ds ++ zeros (Z.to_nat (decpt - n)) ++ ".0").

(** [repr(v)] for a Python [float]. *)
Definition repr (v : float) : string :=
  match v with
  | F_nan => "nan"
  | F_inf negative => if negative then "-inf" else "inf"
  | F_fin m e => repr_finite m e
  end.

End PyFloat.

(** ** The camera SDK as the script sees it ([import pyzed.sl as sl])

    The SDK is closed: the repository holds only the calls.  The data it
    exchanges with the script is given here; what a call does to the session
    and what the sampler answers is modelled from the spec's contracts and
    from the outputs the script records in its comments. *)

Module sl.
Import PyFloat.

Module ERROR_CODE.
(** The script only ever compares a status with [SUCCESS]; the other
    members stand for the SDK's failure codes. *)
Inductive t : Type :=
| SUCCESS
| FAILURE
| CAMERA_NOT_DETECTED
| INVALID_SVO_FILE
| END_OF_SVOFILE_REACHED
| CAMERA_NOT_INITIALIZED.

Definition eqb (a b : t) : bool :=
  match a, b with
  | SUCCESS, SUCCESS | FAILURE, FAILURE
  | CAMERA_NOT_DETECTED, CAMERA_NOT_DETECTED
  | INVALID_SVO_FILE, INVALID_SVO_FILE
  | END_OF_SVOFILE_REACHED, END_OF_SVOFILE_REACHED
  | CAMERA_NOT_INITIALIZED, CAMERA_NOT_INITIALIZED => true
  | _, _ => false
  end.

(** How a status prints inside a tuple; the script's own comment shows
    [(SUCCESS, 709.8384399414062)]. *)
Definition repr (c : t) : string :=
  match c with
  | SUCCESS => "SUCCESS"
  | FAILURE => "FAILURE"
  | CAMERA_NOT_DETECTED => "CAMERA_NOT_DETECTED"
  | INVALID_SVO_FILE => "INVALID_SVO_FILE"
  | END_OF_SVOFILE_REACHED => "END_OF_SVOFILE_REACHED"
  | CAMERA_NOT_INITIALIZED => "CAMERA_NOT_INITIALIZED"
  end.
End ERROR_CODE.

Module RESOLUTION.
Inductive t : Type := HD2K | HD1080 | HD720 | VGA.

(** Modelled from the spec: the pixel size of a resolution tier, as
    (width, height); the script's comment on [get_infos] reads
    [sl::Mat of size [1920,1080]] for [HD1080]. *)
Definition size (r : t) : Z * Z :=
  match r with
  | HD2K => (2208, 1242)
  | HD1080 => (1920, 1080)
  | HD720 => (1280, 720)
  | VGA => (672, 376)
  end.
End RESOLUTION.

Module DEPTH_MODE.
Inductive t : Type := NONE | PERFORMANCE | QUALITY | ULTRA | NEURAL.
End DEPTH_MODE.

Module UNIT.
Inductive t : Type := MILLIMETER | CENTIMETER | METER | INCH | FOOT.
End UNIT.

Module VIEW.
Inductive t : Type := LEFT | RIGHT | DEPTH.
End VIEW.

Module MEASURE.
Inductive t : Type := DEPTH | XYZRGBA.
End MEASURE.

Module TIME_REFERENCE.
Inductive t : Type := IMAGE | CURRENT.
End TIME_REFERENCE.

(** [sl.InitParameters]: a field the script has not assigned is [None]
    (the SDK then uses its own default). *)
Record InitParameters : Type := {
  camera_resolution : option RESOLUTION.t;
  camera_fps : option Z;
  depth_mode : option DEPTH_MODE.t;
  coordinate_units : option UNIT.t
}.

Definition InitParameters_default : InitParameters :=
  {| camera_resolution := None; camera_fps := None;
     depth_mode := None; coordinate_units := None |}.

Definition fully_assigned (p : InitParameters) : bool :=
  match camera_resolution p, camera_fps p, depth_mode p, coordinate_units p with
  | Some _, Some _, Some _, Some _ => true
  | _, _, _, _ => false
  end.

(** [sl.Mat]: the rows of the matrix, top row first; [sl.Mat()] is empty. *)
Definition Mat (P : Type) : Type := list (list P).

Definition Mat_empty {P : Type} : Mat P := [].

Definition get_height {P : Type} (m : Mat P) : Z := Z.of_nat (List.length m).

Definition get_width {P : Type} (m : Mat P) : Z :=
  match m with
  | [] => 0
  | row :: _ => Z.of_nat (List.length row)
  end.

(** Is [m] a matrix of [h] rows of [w] entries each? *)
Definition has_size {P : Type} (m : Mat P) (w h : Z) : bool :=
  (Z.of_nat (List.length m) =? h)
  && forallb (fun row => Z.of_nat (List.length row) =? w) m.

(** The entry of column [x] in row [y]. *)
Definition pixel {P : Type} (m : Mat P) (x y : Z) : option P :=
  if (x <? 0) || (y <? 0) then None
  else match nth_error m (Z.to_nat y) with
       | Some row => nth_error row (Z.to_nat x)
       | None => None
       end.

(** Pixel formats: 4-channel 8-bit (B, G, R, A) for views, one float for
    depth, four floats for the coloured point cloud. *)
Definition U8_C4 : Type := (Z * Z * Z * Z)%type.
Definition F32_C1 : Type := float.
Definition F32_C4 : Type := (float * float * float * float)%type.

(** [sl.Timestamp] *)
Record Timestamp : Type := { milliseconds : Z }.

(** What the four descriptive getters of a [Mat] answer. *)
Record MatInfo : Type := {
  pixel_bytes : Z;
  data_type : string;
  infos : string;
  step_bytes : Z
}.

(** One synchronized bundle: every view and measure of one instant, under
    one capture timestamp. *)
Record Frame : Type := {
  frame_view : VIEW.t -> Mat U8_C4;
  frame_depth : Mat F32_C1;
  frame_xyzrgba : Mat F32_C4;
  frame_timestamp : Timestamp
}.

(** Modelled from the spec: the session life cycle
    Unopened -> Opened -> (Grabbed <-> Grabbed) -> Closed. *)
Inductive SessionState : Type := Unopened | Opened | Grabbed | Closed.

(** Modelled from the spec: [open] takes the session to Opened when it
    succeeds, a successful [grab] on an open session makes a bundle
    available, and [close] ends the session. *)
Definition after_open (s : SessionState) (r : ERROR_CODE.t) : SessionState :=
  if ERROR_CODE.eqb r ERROR_CODE.SUCCESS then Opened else s.

Definition after_grab (s : SessionState) (r : ERROR_CODE.t) : SessionState :=
  match s, ERROR_CODE.eqb r ERROR_CODE.SUCCESS with
  | Opened, true | Grabbed, true => Grabbed
  | _, _ => s
  end.

Definition after_close (s : SessionState) : SessionState := Closed.

(** Modelled from the spec: retrieval copies the requested output of the
    grabbed bundle into the caller's buffer; before a successful grab there
    is no bundle and the buffer receives empty data. *)
Definition bundle_output {P : Type} (out : Frame -> Mat P) (f : Frame)
    (s : SessionState) : Mat P :=
  match s with
  | Grabbed => out f
  | _ => Mat_empty
  end.

(** Python exceptions the run can end with. *)
Inductive Exn : Type :=
| IndexError
| AttributeError
| RangeError
| SessionClosedError.

(** Modelled from the spec: the point sampler [Mat.get_value], which is
    part of the closed SDK.  Within the image bounds it returns a status
    code together with the depth at that pixel; out-of-bounds coordinates
    fail with a RangeError. *)
Definition get_value (m : Mat F32_C1) (x y : Z) : ERROR_CODE.t * float + Exn :=
  if (0 <=? x) && (x <? get_width m) && (0 <=? y) && (y <? get_height m)
  then match pixel m x y with
       | Some v => inl (ERROR_CODE.SUCCESS, v)
       | None => inr RangeError
       end
  else inr RangeError.

(** Does a depth matrix hold distances and not-a-number entries only (no
    infinity)? *)
Definition depth_entries_ok (m : Mat F32_C1) : bool :=
  forallb (forallb (fun v => is_finite v || is_nan v)) m.

End sl.

(** ** The run-time world of the script *)

Module Script.
Import PyText PyFloat sl.

(** The collaborators outside the script: what the camera answers, and what
    OpenCV draws. *)
Record Env : Type := {
  dev_open : InitParameters -> ERROR_CODE.t;
  dev_serial_number : Z;
  dev_grab : ERROR_CODE.t;
  dev_frame : Frame;
  dev_mat_info : Mat F32_C1 -> MatInfo;
  cv2_draw_circle : Mat U8_C4 -> Z * Z -> Z -> Z * Z * Z -> Z -> Mat U8_C4
}.

(** The names of the four [sl.Mat] objects the script creates. *)
Inductive Buffer : Type := image | depth | point | depth_view.

Inductive ParamField : Type :=
| camera_resolution_field
| camera_fps_field
| depth_mode_field
| coordinate_units_field.

(** Every call the script issues on a collaborator, in program order. *)
Inductive Event : Type :=
| EvSetParam (f : ParamField)
| EvOpen (cfg : InitParameters) (r : ERROR_CODE.t)
| EvExit
| EvGetCameraInformation
| EvGrab (r : ERROR_CODE.t)
| EvRetrieveImage (b : Buffer) (v : VIEW.t)
| EvRetrieveMeasure (b : Buffer) (m : MEASURE.t)
| EvGetTimestamp (r : TIME_REFERENCE.t)
| EvGetData (b : Buffer)
| EvMatInfo (b : Buffer)
| EvGetValue (b : Buffer) (x y : Z)
| EvPrint (text : string)
| EvCircle (b : Buffer) (center : Z * Z)
| EvImshow (title : string) (b : Buffer) (shown : Mat U8_C4)
| EvWaitKey
| EvDestroyAllWindows
| EvSavetxt (filename : string) (lines : list string)
| EvClose.

(** The heap of the script: the session behind [zed], the [init_params]
    object, the content of the four buffers, and the log of calls. *)
Record World : Type := {
  zed : SessionState;
  init_params : InitParameters;
  image_mat : Mat U8_C4;
  depth_mat : Mat F32_C1;
  point_mat : Mat F32_C4;
  depth_view_mat : Mat U8_C4;
  log : list Event
}.

Definition initial_world : World :=
  {| zed := Unopened; init_params := InitParameters_default;
     image_mat := Mat_empty; depth_mat := Mat_empty;
     point_mat := Mat_empty; depth_view_mat := Mat_empty; log := [] |}.

Definition set_zed (s : SessionState) (w : World) : World :=
  {| zed := s; init_params := init_params w; image_mat := image_mat w;
     depth_mat := depth_mat w; point_mat := point_mat w;
     depth_view_mat := depth_view_mat w; log := log w |}.

Definition set_init_params (p : InitParameters) (w : World) : World :=
  {| zed := zed w; init_params := p; image_mat := image_mat w;
     depth_mat := depth_mat w; point_mat := point_mat w;
     depth_view_mat := depth_view_mat w; log := log w |}.

Definition set_image_mat (m : Mat U8_C4) (w : World) : World :=
  {| zed := zed w; init_params := init_params w; image_mat := m;
     depth_mat := depth_mat w; point_mat := point_mat w;
     depth_view_mat := depth_view_mat w; log := log w |}.

Definition set_depth_mat (m : Mat F32_C1) (w : World) : World :=
  {| zed := zed w; init_params := init_params w; image_mat := image_mat w;
     depth_mat := m; point_mat := point_mat w;
     depth_view_mat := depth_view_mat w; log := log w |}.

Definition set_point_mat (m : Mat F32_C4) (w : World) : World :=
  {| zed := zed w; init_params := init_params w; image_mat := image_mat w;
     depth_mat := depth_mat w; point_mat := m;
     depth_view_mat := depth_view_mat w; log := log w |}.

Definition set_depth_view_mat (m : Mat U8_C4) (w : World) : World :=
  {| zed := zed w; init_params := init_params w; image_mat := image_mat w;
     depth_mat := depth_mat w; point_mat := point_mat w;
     depth_view_mat := m; log := log w |}.

Definition emit (e : Event) (w : World) : World :=
  {| zed := zed w; init_params := init_params w; image_mat := image_mat w;
     depth_mat := depth_mat w; point_mat := point_mat w;
     depth_view_mat := depth_view_mat w; log := (log w ++ [e])%list |}.

(** A typed reference to one of the buffers.  [Mat.get_data] returns a NumPy
    array over the memory of the [Mat], so the array variables of the script
    ([image_data], [depth_data], ...) are such references, not copies. *)
Record Ref (P : Type) : Type := {
  ref_name : Buffer;
  ref_get : World -> Mat P;
  ref_set : Mat P -> World -> World
}.
Arguments ref_name {P} _.
Arguments ref_get {P} _ _.
Arguments ref_set {P} _ _ _.

Definition image_ref : Ref U8_C4 :=
  {| ref_name := image; ref_get := image_mat; ref_set := set_image_mat |}.
Definition depth_ref : Ref F32_C1 :=
  {| ref_name := depth; ref_get := depth_mat; ref_set := set_depth_mat |}.
Definition point_ref : Ref F32_C4 :=
  {| ref_name := point; ref_get := point_mat; ref_set := set_point_mat |}.
Definition depth_view_ref : Ref U8_C4 :=
  {| ref_name := depth_view; ref_get := depth_view_mat;
     ref_set := set_depth_view_mat |}.

(** *** The monad: state, plus the three ways a Python statement ends *)

Inductive Outcome (A : Type) : Type :=
| Ok (a : A)
| Raised (e : Exn)
| Exited.
Arguments Ok {A} a.
Arguments Raised {A} e.
Arguments Exited {A}.

Definition M (A : Type) : Type := World -> Outcome A * World.

Definition ret {A : Type} (a : A) : M A := fun w => (Ok a, w).

Definition bind {A B : Type} (c : M A) (k : A -> M B) : M B :=
  fun w =>
    match c w with
    | (Ok a, w') => k a w'
    | (Raised e, w') => (Raised e, w')
    | (Exited, w') => (Exited, w')
    end.

Notation "x <- c ;; k" := (bind c (fun x => k))
  (at level 61, c at next level, right associativity).
Notation "c ;; k" := (bind c (fun _ => k))
  (at level 61, right associativity).

Definition raise {A : Type} (e : Exn) : M A := fun w => (Raised e, w).

Definition call (e : Event) : M unit := fun w => (Ok tt, emit e w).

Definition modify (f : World -> World) : M unit := fun w => (Ok tt, f w).

Definition read {A : Type} (f : World -> A) : M A := fun w => (Ok (f w), w).

(** *** Camera session calls *)

(** Modelled from the spec: any call on a closed session fails. *)
Definition on_session {A : Type} (c : M A) : M A :=
  fun w =>
    match zed w with
    | Closed => (Raised SessionClosedError, w)
    | _ => c w
    end.

(** [zed = sl.Camera()] *)
Definition Camera_new : M unit := modify (set_zed Unopened).

(** [init_params = sl.InitParameters()] *)
Definition InitParameters_new : M unit :=
  modify (set_init_params InitParameters_default).

Definition set_camera_resolution (v : RESOLUTION.t) : M unit :=
  call (EvSetParam camera_resolution_field) ;;
  modify (fun w =>
    let p := init_params w in
    set_init_params
      {| camera_resolution := Some v; camera_fps := camera_fps p;
         depth_mode := depth_mode p;
         coordinate_units := coordinate_units p |} w).

Definition set_camera_fps (v : Z) : M unit :=
  call (EvSetParam camera_fps_field) ;;
  modify (fun w =>
    let p := init_params w in
    set_init_params
      {| camera_resolution := camera_resolution p; camera_fps := Some v;
         depth_mode := depth_mode p;
         coordinate_units := coordinate_units p |} w).

Definition set_depth_mode (v : DEPTH_MODE.t) : M unit :=
  call (EvSetParam depth_mode_field) ;;
  modify (fun w =>
    let p := init_params w in
    set_init_params
      {| camera_resolution := camera_resolution p; camera_fps := camera_fps p;
         depth_mode := Some v;
         coordinate_units := coordinate_units p |} w).

Definition set_coordinate_units (v : UNIT.t) : M unit :=
  call (EvSetParam coordinate_units_field) ;;
  modify (fun w =>
    let p := init_params w in
    set_init_params
      {| camera_resolution := camera_resolution p; camera_fps := camera_fps p;
         depth_mode := depth_mode p;
         coordinate_units := Some v |} w).

(** [zed.open(init_params)] *)
Definition Camera_open (env : Env) : M ERROR_CODE.t :=
  on_session (
    p <- read init_params ;;
    let r := dev_open env p in
    call (EvOpen p r) ;;
    modify (fun w => set_zed (after_open (zed w) r) w) ;;
    ret r).

(** [zed.get_camera_information().serial_number] *)
Definition Camera_serial_number (env : Env) : M Z :=
  on_session (call EvGetCameraInformation ;; ret (dev_serial_number env)).

(** [sl.RuntimeParameters()], left at its defaults. *)
Inductive RuntimeParameters : Type := RuntimeParameters_default.

(** [zed.grab(runtime_parameters)] *)
Definition Camera_grab (env : Env) (_ : RuntimeParameters) : M ERROR_CODE.t :=
  on_session (
    let r := dev_grab env in
    call (EvGrab r) ;;
    modify (fun w => set_zed (after_grab (zed w) r) w) ;;
    ret r).

(** [zed.retrieve_image(dst, view)] *)
Definition Camera_retrieve_image (env : Env) (dst : Ref U8_C4) (v : VIEW.t)
    : M unit :=
  on_session (
    call (EvRetrieveImage (ref_name dst) v) ;;
    s <- read zed ;;
    modify (ref_set dst
              (bundle_output (fun f => frame_view f v) (dev_frame env) s))).

(** [zed.retrieve_measure(dst, sl.MEASURE.DEPTH)] *)
Definition Camera_retrieve_measure_DEPTH (env : Env) (dst : Ref F32_C1)
    : M unit :=
  on_session (
    call (EvRetrieveMeasure (ref_name dst) MEASURE.DEPTH) ;;
    s <- read zed ;;
    modify (ref_set dst (bundle_output frame_depth (dev_frame env) s))).

(** [zed.retrieve_measure(dst, sl.MEASURE.XYZRGBA)] *)
Definition Camera_retrieve_measure_XYZRGBA (env : Env) (dst : Ref F32_C4)
    : M unit :=
  on_session (
    call (EvRetrieveMeasure (ref_name dst) MEASURE.XYZRGBA) ;;
    s <- read zed ;;
    modify (ref_set dst (bundle_output frame_xyzrgba (dev_frame env) s))).

(** [zed.get_timestamp(reference)] *)
Definition Camera_get_timestamp (env : Env) (r : TIME_REFERENCE.t)
    : M Timestamp :=
  on_session (call (EvGetTimestamp r) ;; ret (frame_timestamp (dev_frame env))).

(** [zed.close()] *)
Definition Camera_close : M unit :=
  on_session (
    call EvClose ;;
    modify (fun w => set_zed (after_close (zed w)) w)).

(** *** [sl.Mat] and [sl.Timestamp] methods *)

(** [buf = sl.Mat()] *)
Definition Mat_new {P : Type} (buf : Ref P) : M unit :=
  modify (ref_set buf Mat_empty).

Definition Mat_get_width {P : Type} (buf : Ref P) : M Z :=
  read (fun w => get_width (ref_get buf w)).

Definition Mat_get_height {P : Type} (buf : Ref P) : M Z :=
  read (fun w => get_height (ref_get buf w)).

(** [buf.get_data()]: the array shares the buffer. *)
Definition Mat_get_data {P : Type} (buf : Ref P) : M (Ref P) :=
  call (EvGetData (ref_name buf)) ;; ret buf.

Definition Mat_info (env : Env) (buf : Ref F32_C1) : M MatInfo :=
  call (EvMatInfo (ref_name buf)) ;;
  read (fun w => dev_mat_info env (ref_get buf w)).

Definition Mat_get_pixel_bytes (env : Env) (buf : Ref F32_C1) : M Z :=
  i <- Mat_info env buf ;; ret (pixel_bytes i).

Definition Mat_get_data_type (env : Env) (buf : Ref F32_C1) : M string :=
  i <- Mat_info env buf ;; ret (data_type i).

Definition Mat_get_infos (env : Env) (buf : Ref F32_C1) : M string :=
  i <- Mat_info env buf ;; ret (infos i).

Definition Mat_get_step_bytes (env : Env) (buf : Ref F32_C1) : M Z :=
  i <- Mat_info env buf ;; ret (step_bytes i).

(** [buf.get_value(x=x, y=y)] *)
Definition Mat_get_value (buf : Ref F32_C1) (x y : Z)
    : M (ERROR_CODE.t * float) :=
  call (EvGetValue (ref_name buf) x y) ;;
  m <- read (ref_get buf) ;;
  match sl.get_value m x y with
  | inl r => ret r
  | inr e => raise e
  end.

(** [timestamp.get_milliseconds()], where [timestamp] may still be the
    [None] of the first line of the script. *)
Definition get_milliseconds (timestamp : option Timestamp) : M Z :=
  match timestamp with
  | Some t => ret (milliseconds t)
  | None => raise AttributeError
  end.

(** *** NumPy, OpenCV and the built-ins *)

(** [arr.shape] of a two-dimensional array. *)
Definition ndarray_shape {P : Type} (arr : Ref P) : M (Z * Z) :=
  read (fun w => (get_height (ref_get arr w), get_width (ref_get arr w))).

(** The entry [m[0][0]], when row 0 and its column 0 exist. *)
Definition first_entry {P : Type} (m : Mat P) : option P :=
  match m with
  | (v :: _) :: _ => Some v
  | _ => None
  end.

(** [arr[0][0]] *)
Definition ndarray_first {P : Type} (arr : Ref P) : M P :=
  m <- read (ref_get arr) ;;
  match first_entry m with
  | Some v => ret v
  | None => raise IndexError
  end.

(** The [fmt] argument of [np.savetxt]. *)
Inductive Fmt : Type := percent_f (precision : nat).

Definition apply_fmt (fmt : Fmt) (v : float) : string :=
  match fmt with percent_f precision => format_f precision v end.

(** The text [np.savetxt] writes, line by line: the entries of a row under
    [fmt], joined by single spaces. *)
Definition savetxt_lines (fmt : Fmt) (m : Mat F32_C1) : list string :=
  map (fun row => join " " (map (apply_fmt fmt) row)) m.

(** [np.savetxt(filename, arr, fmt=fmt)] *)
Definition np_savetxt (filename : string) (arr : Ref F32_C1) (fmt : Fmt)
    : M unit :=
  m <- read (ref_get arr) ;;
  call (EvSavetxt filename (savetxt_lines fmt m)).

(** [cv2.circle(img, center, radius, color, thickness)] draws in place. *)
Definition cv2_circle (env : Env) (img : Ref U8_C4) (center : Z * Z)
    (radius : Z) (color : Z * Z * Z) (thickness : Z) : M unit :=
  call (EvCircle (ref_name img) center) ;;
  modify (fun w =>
    ref_set img
      (cv2_draw_circle env (ref_get img w) center radius color thickness) w).

Definition cv2_imshow (title : string) (img : Ref U8_C4) : M unit :=
  m <- read (ref_get img) ;;
  call (EvImshow title (ref_name img) m).

Definition cv2_waitKey (delay : Z) : M unit := call EvWaitKey.

Definition cv2_destroyAllWindows : M unit := call EvDestroyAllWindows.

Definition print (text : string) : M unit := call (EvPrint text).

(** [exit()] ends the script on the spot. *)
Definition exit {A : Type} : M A := fun w => (Exited, emit EvExit w).

Definition newline : string := String (ascii_of_nat 10) "".

(** [str((status, value))] *)
Definition str_sample (r : ERROR_CODE.t * float) : string :=
  "(" ++ ERROR_CODE.repr (fst r) ++ ", " ++ PyFloat.repr (snd r) ++ ")".

(** [str((rows, columns))] *)
Definition str_shape (s : Z * Z) : string :=
  "(" ++ str_int (fst s) ++ ", " ++ str_int (snd s) ++ ")".

(** ** The script

    [main] follows the [__main__] block statement by statement.  The
    statements after the [if zed.grab(...)] block are at the indentation of
    the block itself, so they run whatever [grab] answered. *)

Definition x_value : Z := 1000.
Definition y_value : Z := 600.

(** The body of [if zed.grab(runtime_parameters) == SUCCESS:]; it yields the
    new binding of [timestamp]. *)
Definition grab_branch (env : Env) : M (option Timestamp) :=
  Camera_retrieve_image env image_ref VIEW.LEFT ;;
  Camera_retrieve_measure_DEPTH env depth_ref ;;
  Camera_retrieve_image env depth_view_ref VIEW.DEPTH ;;
  Camera_retrieve_measure_XYZRGBA env point_ref ;;
  timestamp <- Camera_get_timestamp env TIME_REFERENCE.IMAGE ;;
  width <- Mat_get_width image_ref ;;
  height <- Mat_get_height image_ref ;;
  ms <- get_milliseconds (Some timestamp) ;;
  print ("Image resolution: " ++ str_int width ++ " x " ++ str_int height
           ++ " || Image timestamp: " ++ str_int ms ++ newline) ;;
  ret (Some timestamp).

(** From [image_data = image.get_data()] to [zed.close()]. *)
Definition rest_of_script (env : Env) (timestamp : option Timestamp)
    : M unit :=
  image_data <- Mat_get_data image_ref ;;
  depth_data <- Mat_get_data depth_ref ;;
  depth_imag <- Mat_get_data depth_view_ref ;;
  point_data <- Mat_get_data point_ref ;;
  pixel_bytes <- Mat_get_pixel_bytes env depth_ref ;;
  data_type <- Mat_get_data_type env depth_ref ;;
  infos <- Mat_get_infos env depth_ref ;;
  step_bytes <- Mat_get_step_bytes env depth_ref ;;
  print (join " " [str_int pixel_bytes; newline; data_type; newline;
                   infos; newline; str_int step_bytes; newline]) ;;
  shape <- ndarray_shape depth_data ;;
  print (str_shape shape) ;;
  _ <- ndarray_first depth_data ;;
  print "<class 'numpy.float32'>" ;;
  sample <- Mat_get_value depth_ref x_value y_value ;;
  print ("The depth of the " ++ str_int x_value ++ " " ++ str_int y_value
           ++ " is " ++ str_sample sample) ;;
  cv2_circle env image_data (x_value, y_value) 5 (0, 0, 255) 1 ;;
  cv2_imshow "LEFT View" image_data ;;
  cv2_waitKey 0 ;;
  cv2_destroyAllWindows ;;
  cv2_imshow "Depth View" depth_imag ;;
  cv2_waitKey 0 ;;
  cv2_destroyAllWindows ;;
  ms <- get_milliseconds timestamp ;;
  let filename := str_int ms ++ ".txt" in
  np_savetxt filename depth_data (percent_f 8) ;;
  Camera_close.

Definition main (env : Env) : M unit :=
  let timestamp : option Timestamp := None in
  Camera_new ;;
  InitParameters_new ;;
  set_camera_resolution RESOLUTION.HD1080 ;;
  set_camera_fps 30 ;;
  set_depth_mode DEPTH_MODE.PERFORMANCE ;;
  set_coordinate_units UNIT.MILLIMETER ;;
  err <- Camera_open env ;;
  (if negb (ERROR_CODE.eqb err ERROR_CODE.SUCCESS) then exit else ret tt) ;;
  zed_serial <- Camera_serial_number env ;;
  print ("Hello! This is my serial number: " ++ str_int zed_serial) ;;
  Mat_new image_ref ;;
  Mat_new depth_ref ;;
  Mat_new point_ref ;;
  Mat_new depth_view_ref ;;
  let runtime_parameters := RuntimeParameters_default in
  status <- Camera_grab env runtime_parameters ;;
  timestamp <- (if ERROR_CODE.eqb status ERROR_CODE.SUCCESS
                then grab_branch env else ret timestamp) ;;
  rest_of_script env timestamp.

(** One run of the script against the collaborators [env]. *)
Definition run (env : Env) : Outcome unit * World := main env initial_world.

Definition outcome (env : Env) : Outcome unit := fst (run env).
Definition final (env : Env) : World := snd (run env).
Definition trace (env : Env) : list Event := log (final env).

(** *** Reading a trace *)

(** What reached standard output, one entry per [print]. *)
Fixpoint stdout (t : list Event) : list string :=
  match t with
  | [] => []
  | EvPrint text :: rest => text :: stdout rest
  | _ :: rest => stdout rest
  end.

(** The files written, as (name, lines). *)
Fixpoint files (t : list Event) : list (string * list string) :=
  match t with
  | [] => []
  | EvSavetxt name lines :: rest => (name, lines) :: files rest
  | _ :: rest => files rest
  end.

(** The calls that hand out data of the grabbed bundle. *)
Definition is_retrieval (e : Event) : bool :=
  match e with
  | EvRetrieveImage _ _ | EvRetrieveMeasure _ _ | EvGetTimestamp _ => true
  | _ => false
  end.

(** The steps that consume the frame bundle: reading the buffers, their
    metadata, the sample, the display and the export. *)
Definition uses_frame (e : Event) : bool :=
  match e with
  | EvRetrieveImage _ _ | EvRetrieveMeasure _ _ | EvGetTimestamp _
  | EvGetData _ | EvMatInfo _ | EvGetValue _ _ _
  | EvCircle _ _ | EvImshow _ _ _ | EvSavetxt _ _ => true
  | _ => false
  end.

(** Everything that may only follow a successful [open]. *)
Definition needs_open_session (e : Event) : bool :=
  match e with
  | EvGetCameraInformation | EvGrab _ | EvClose
  | EvWaitKey | EvDestroyAllWindows | EvPrint _ => true
  | _ => uses_frame e
  end.

(** ** The five ways a run can go

    The configuration the script builds, and for each path through the
    script the calls it logs, written out. *)

Definition script_config : InitParameters :=
  {| camera_resolution := Some RESOLUTION.HD1080; camera_fps := Some 30;
     depth_mode := Some DEPTH_MODE.PERFORMANCE;
     coordinate_units := Some UNIT.MILLIMETER |}.

Definition log_configure (env : Env) : list Event :=
  [EvSetParam camera_resolution_field; EvSetParam camera_fps_field;
   EvSetParam depth_mode_field; EvSetParam coordinate_units_field;
   EvOpen script_config (dev_open env script_config)].

Definition log_grab (env : Env) : list Event :=
  [EvGetCameraInformation;
   EvPrint ("Hello! This is my serial number: "
              ++ str_int (dev_serial_number env));
   EvGrab (dev_grab env)].

Definition log_retrieve (env : Env) : list Event :=
  let f := dev_frame env in
  [EvRetrieveImage image VIEW.LEFT;
   EvRetrieveMeasure depth MEASURE.DEPTH;
   EvRetrieveImage depth_view VIEW.DEPTH;
   EvRetrieveMeasure point MEASURE.XYZRGBA;
   EvGetTimestamp TIME_REFERENCE.IMAGE;
   EvPrint ("Image resolution: "
              ++ str_int (get_width (frame_view f VIEW.LEFT)) ++ " x "
              ++ str_int (get_height (frame_view f VIEW.LEFT))
              ++ " || Image timestamp: "
              ++ str_int (milliseconds (frame_timestamp f)) ++ newline)].

Definition log_inspect (env : Env) (m : Mat F32_C1) : list Event :=
  let i := dev_mat_info env m in
  [EvGetData image; EvGetData depth; EvGetData depth_view; EvGetData point;
   EvMatInfo depth; EvMatInfo depth; EvMatInfo depth; EvMatInfo depth;
   EvPrint (join " " [str_int (pixel_bytes i); newline; data_type i; newline;
                      infos i; newline; str_int (step_bytes i); newline]);
   EvPrint (str_shape (get_height m, get_width m))].

Definition log_sample_call : list Event :=
  [EvPrint "<class 'numpy.float32'>"; EvGetValue depth x_value y_value].

Definition sample_line (sample : ERROR_CODE.t * float) : string :=
  "The depth of the " ++ str_int x_value ++ " " ++ str_int y_value
    ++ " is " ++ str_sample sample.

Definition marked_image (env : Env) : Mat U8_C4 :=
  cv2_draw_circle env (frame_view (dev_frame env) VIEW.LEFT)
    (x_value, y_value) 5 (0, 0, 255) 1.

Definition log_display (env : Env) : list Event :=
  [EvCircle image (x_value, y_value);
   EvImshow "LEFT View" image (marked_image env);
   EvWaitKey; EvDestroyAllWindows;
   EvImshow "Depth View" depth_view (frame_view (dev_frame env) VIEW.DEPTH);
   EvWaitKey; EvDestroyAllWindows].

Definition export_name (env : Env) : string :=
  str_int (milliseconds (frame_timestamp (dev_frame env))) ++ ".txt".

Definition log_export (env : Env) : list Event :=
  [EvSavetxt (export_name env)
     (savetxt_lines (percent_f 8) (frame_depth (dev_frame env)));
   EvClose].

(** The log of a run that reaches [zed.close()]. *)
Definition log_completed (env : Env) (sample : ERROR_CODE.t * float)
    : list Event :=
  (log_configure env ++ log_grab env ++ log_retrieve env
     ++ log_inspect env (frame_depth (dev_frame env))
     ++ log_sample_call ++ [EvPrint (sample_line sample)]
     ++ log_display env ++ log_export env)%list.

Definition world_unopened (l : list Event) : World :=
  {| zed := Unopened; init_params := script_config;
     image_mat := Mat_empty; depth_mat := Mat_empty;
     point_mat := Mat_empty; depth_view_mat := Mat_empty; log := l |}.

Definition world_no_frame (l : list Event) : World :=
  {| zed := Opened; init_params := script_config;
     image_mat := Mat_empty; depth_mat := Mat_empty;
     point_mat := Mat_empty; depth_view_mat := Mat_empty; log := l |}.

Definition world_with_frame (env : Env) (s : SessionState)
    (img : Mat U8_C4) (l : list Event) : World :=
  let f := dev_frame env in
  {| zed := s; init_params := script_config;
     image_mat := img; depth_mat := frame_depth f;
     point_mat := frame_xyzrgba f;
     depth_view_mat := frame_view f VIEW.DEPTH; log := l |}.

Inductive Path (env : Env) : Outcome unit -> World -> Prop :=
| open_failed :
    dev_open env script_config <> ERROR_CODE.SUCCESS ->
    Path env Exited (world_unopened (log_configure env ++ [EvExit]))
| grab_failed :
    dev_open env script_config = ERROR_CODE.SUCCESS ->
    dev_grab env <> ERROR_CODE.SUCCESS ->
    Path env (Raised IndexError)
      (world_no_frame
         (log_configure env ++ log_grab env ++ log_inspect env Mat_empty))
| depth_without_first_entry :
    dev_open env script_config = ERROR_CODE.SUCCESS ->
    dev_grab env = ERROR_CODE.SUCCESS ->
    first_entry (frame_depth (dev_frame env)) = None ->
    Path env (Raised IndexError)
      (world_with_frame env Grabbed (frame_view (dev_frame env) VIEW.LEFT)
         (log_configure env ++ log_grab env ++ log_retrieve env
            ++ log_inspect env (frame_depth (dev_frame env))))
| sample_failed : forall v e,
    dev_open env script_config = ERROR_CODE.SUCCESS ->
    dev_grab env = ERROR_CODE.SUCCESS ->
    first_entry (frame_depth (dev_frame env)) = Some v ->
    sl.get_value (frame_depth (dev_frame env)) x_value y_value = inr e ->
    Path env (Raised e)
      (world_with_frame env Grabbed (frame_view (dev_frame env) VIEW.LEFT)
         (log_configure env ++ log_grab env ++ log_retrieve env
            ++ log_inspect env (frame_depth (dev_frame env))
            ++ log_sample_call))
| completed : forall v sample,
    dev_open env script_config = ERROR_CODE.SUCCESS ->
    dev_grab env = ERROR_CODE.SUCCESS ->
    first_entry (frame_depth (dev_frame env)) = Some v ->
    sl.get_value (frame_depth (dev_frame env)) x_value y_value = inl sample ->
    Path env (Ok tt)
      (world_with_frame env Closed (marked_image env)
         (log_configure env ++ log_grab env ++ log_retrieve env
            ++ log_inspect env (frame_depth (dev_frame env))
            ++ log_sample_call ++ [EvPrint (sample_line sample)]
            ++ log_display env ++ log_export env)).

(** ** Checks on traces and on exported text *)

(** Scanning a trace from the left: has every retrieval been preceded by a
    [grab] that answered [SUCCESS]?  [grabbed] tells whether one was seen. *)
Fixpoint retrievals_guarded (grabbed : bool) (t : list Event) : bool :=
  match t with
  | [] => true
  | EvGrab r :: rest =>
      retrievals_guarded (grabbed || ERROR_CODE.eqb r ERROR_CODE.SUCCESS) rest
  | e :: rest =>
      (negb (is_retrieval e) || grabbed) && retrievals_guarded grabbed rest
  end.

Definition is_config_write (e : Event) : bool :=
  match e with EvSetParam _ => true | _ => false end.

Definition is_close (e : Event) : bool :=
  match e with EvClose => true | _ => false end.

Definition is_grab (e : Event) : bool :=
  match e with EvGrab _ => true | _ => false end.

Definition is_get_value (e : Event) : bool :=
  match e with EvGetValue _ _ _ => true | _ => false end.

(** The number of digits after the decimal point of a printed number:
    [None] when there is no point or something else than digits follows. *)
Fixpoint decimals (s : string) : option nat :=
  match s with
  | EmptyString => None
  | String c rest =>
      if Ascii.eqb c "."%char
      then if forallb is_digit (chars rest)
           then Some (String.length rest) else None
      else decimals rest
  end.

(** The sample line as it would read with the value rendered to eight
    decimals. *)
Definition sample_line_8_decimals (sample : ERROR_CODE.t * float) : string :=
  "The depth of the " ++ str_int x_value ++ " " ++ str_int y_value
    ++ " is (" ++ ERROR_CODE.repr (fst sample) ++ ", "
    ++ format_f 8 (snd sample) ++ ")".

(** Is [m] a depth matrix of the pixel size of resolution [r]? *)
Definition delivered_at (r : RESOLUTION.t) (m : Mat F32_C1) : bool :=
  let '(w, h) := RESOLUTION.size r in has_size m w h.

(** ** Concrete collaborators, for the examples *)

Module Examples.

Fixpoint set_nth {A : Type} (n : nat) (x : A) (l : list A) : list A :=
  match l, n with
  | [], _ => []
  | _ :: t, O => x :: t
  | h :: t, S n' => h :: set_nth n' x t
  end.

(** Write [px] at column [x] of row [y]; outside the image nothing
    changes. *)
Definition set_pixel (img : Mat U8_C4) (x y : Z) (px : U8_C4) : Mat U8_C4 :=
  if (x <? 0) || (y <? 0) then img
  else match nth_error img (Z.to_nat y) with
       | Some row =>
           set_nth (Z.to_nat y) (set_nth (Z.to_nat x) px row) img
       | None => img
       end.

(** A stand-in for OpenCV's rasteriser.  Of the outline of the circle it
    paints the four points on the axes through the centre, in the colour
    given with the fourth channel 0; the centre is left as it is. *)
Definition paint_axis_points (img : Mat U8_C4) (center : Z * Z) (radius : Z)
    (color : Z * Z * Z) (thickness : Z) : Mat U8_C4 :=
  let '(cx, cy) := center in
  let '(b, g, r) := color in
  let px := (b, g, r, 0) in
  set_pixel
    (set_pixel
       (set_pixel (set_pixel img (cx + radius) cy px) (cx - radius) cy px)
       cx (cy + radius) px)
    cx (cy - radius) px.

Definition uniform {P : Type} (v : P) (w h : nat) : Mat P :=
  repeat (repeat v w) h.

(** The sample of the script's own comment: 709.8384399414062, which is
    the float32 value [11629993 / 2^14]. *)
Definition depth_709 : float := F_fin 11629993 (-14).

Definition describe (m : Mat F32_C1) : MatInfo :=
  {| pixel_bytes := 4; data_type := "MAT_TYPE.F32_C1";
     infos := "sl::Mat with 1 channels of type float";
     step_bytes := 4 * get_width m |}.

(** A camera that answers [o] to [open] and [g] to [grab] and delivers
    [w] x [h] frames whose depth is [v] everywhere. *)
Definition camera (o g : ERROR_CODE.t) (v : float) (w h : nat) : Env :=
  {| dev_open := fun _ => o;
     dev_serial_number := 31415926;
     dev_grab := g;
     dev_frame :=
       {| frame_view := fun _ => uniform (0, 0, 0, 255) w h;
          frame_depth := uniform v w h;
          frame_xyzrgba := uniform (v, v, v, v) w h;
          frame_timestamp := {| milliseconds := 1709651329565 |} |};
     dev_mat_info := describe;
     cv2_draw_circle := paint_axis_points |}.

Definition env_hd1080 : Env :=
  camera ERROR_CODE.SUCCESS ERROR_CODE.SUCCESS depth_709 1920 1080.

Definition env_hd1080_nan : Env :=
  camera ERROR_CODE.SUCCESS ERROR_CODE.SUCCESS F_nan 1920 1080.

Definition env_vga : Env :=
  camera ERROR_CODE.SUCCESS ERROR_CODE.SUCCESS depth_709 672 376.

Definition env_open_fails : Env :=
  camera ERROR_CODE.CAMERA_NOT_DETECTED ERROR_CODE.SUCCESS depth_709 1920 1080.

Definition env_grab_fails : Env :=
  camera ERROR_CODE.SUCCESS ERROR_CODE.END_OF_SVOFILE_REACHED depth_709
    1920 1080.

End Examples.

End Script.

(** ** Reading the output back *)

Module Readback.
Import PyText PyFloat sl Script.

(** The text before and after the first decimal point. *)
Fixpoint split_point (s : string) : string * string :=
  match s with
  | EmptyString => (EmptyString, EmptyString)
  | String c rest =>
      if Ascii.eqb c "."%char then (EmptyString, rest)
      else let '(whole, frac) := split_point rest in (String c whole, frac)
  end.

(** The number a fixed-point text stands for: [<digits>.<digits>]. *)
Definition read_unsigned (s : string) : Q :=
  let '(whole, frac) := split_point s in
  (inject_Z (digits_value whole)
   + inject_Z (digits_value frac)
     / inject_Z (10 ^ Z.of_nat (String.length frac)))%Q.

(** The same with an optional leading minus sign. *)
Definition read_fixed (s : string) : Q :=
  match s with
  | String c rest =>
      if Ascii.eqb c "-"%char then (- read_unsigned rest)%Q
      else read_unsigned s
  | EmptyString => 0%Q
  end.

(** The exact value of a finite float. *)
Definition exact (m e : Z) : Q := (inject_Z m * pow2 e)%Q.

Definition is_open (e : Event) : bool :=
  match e with EvOpen _ _ => true | _ => false end.

Definition is_imshow (e : Event) : bool :=
  match e with EvImshow _ _ _ => true | _ => false end.

(** The exit status of the interpreter: 0 when the script runs to its end
    and when it calls [exit()] without an argument, 1 after an uncaught
    exception. *)
Definition exit_status (o : Outcome unit) : Z :=
  match o with
  | Ok _ => 0
  | Exited => 0
  | Raised _ => 1
  end.

(** A camera that delivers HD720 frames. *)
Definition env_hd720 : Env :=
  Examples.camera ERROR_CODE.SUCCESS ERROR_CODE.SUCCESS Examples.depth_709
    1280 720.

End Readback.

(** * Properties *)

(** ** Text *)

Module TextFacts.
Import PyText.

Lemma chars_app (a b : string) : chars (a ++ b) = (chars a ++ chars b)%list.
Proof.
  induction a as [|c a IH]; simpl; [reflexivity | now rewrite IH].
Qed.

Lemma length_chars (s : string) : List.length (chars s) = String.length s.
Proof.
  induction s as [|c s IH]; simpl; [reflexivity | now rewrite IH].
Qed.

Lemma append_empty_r (s : string) : s ++ "" = s.
Proof.
  induction s as [|c s IH]; simpl; [reflexivity | now rewrite IH].
Qed.

Lemma append_assoc (a b c : string) : (a ++ b) ++ c = a ++ (b ++ c).
Proof.
  induction a as [|x a IH]; simpl; [reflexivity | now rewrite IH].
Qed.

Lemma digit_char_is_digit (d : Z) :
  0 <= d < 10 -> is_digit (digit_char d) = true.
Proof.
  intros H.
  assert (E : d = 0 \/ d = 1 \/ d = 2 \/ d = 3 \/ d = 4 \/ d = 5 \/ d = 6
              \/ d = 7 \/ d = 8 \/ d = 9) by lia.
  repeat (destruct E as [E | E]; [subst d; reflexivity |]).
  subst d; reflexivity.
Qed.

Lemma mod10_is_digit (n : Z) : is_digit (digit_char (n mod 10)) = true.
Proof. apply digit_char_is_digit, Z.mod_pos_bound; lia. Qed.

Lemma digits_fuel_digits (fuel : nat) (n : Z) (acc : string) :
  Forall (fun c => is_digit c = true) (chars acc) ->
  Forall (fun c => is_digit c = true) (chars (digits_fuel fuel n acc)).
Proof.
  revert n acc.
  induction fuel as [|fuel IH]; intros n acc Hacc; simpl; [assumption |].
  assert (Hnext : Forall (fun c => is_digit c = true)
                    (chars (String (digit_char (n mod 10)) acc))).
  { simpl. constructor; [apply mod10_is_digit | assumption]. }
  destruct (n <? 10); [exact Hnext | now apply IH].
Qed.

Lemma str_nat_digits (n : Z) :
  Forall (fun c => is_digit c = true) (chars (str_nat n)).
Proof. unfold str_nat. apply digits_fuel_digits. constructor. Qed.

Lemma pad_digits_digits (k : nat) (n : Z) :
  Forall (fun c => is_digit c = true) (chars (pad_digits k n)).
Proof.
  revert n.
  induction k as [|k IH]; intros n; simpl; [constructor |].
  rewrite chars_app. apply Forall_app. split; [apply IH |].
  simpl. constructor; [apply mod10_is_digit | constructor].
Qed.

Lemma pad_digits_length (k : nat) (n : Z) :
  String.length (pad_digits k n) = k.
Proof.
  revert n.
  induction k as [|k IH]; intros n; simpl; [reflexivity |].
  rewrite <- length_chars, chars_app, length_app, length_chars, IH.
  simpl. lia.
Qed.

Lemma digit_char_value (d : Z) :
  0 <= d < 10 -> Z.of_nat (nat_of_ascii (digit_char d)) - 48 = d.
Proof.
  intros H.
  assert (E : d = 0 \/ d = 1 \/ d = 2 \/ d = 3 \/ d = 4 \/ d = 5 \/ d = 6
              \/ d = 7 \/ d = 8 \/ d = 9) by lia.
  repeat (destruct E as [E | E]; [subst d; reflexivity |]).
  subst d; reflexivity.
Qed.

(** With fuel for every digit, the digits written read back as [n]. *)
Lemma digits_fuel_value (fuel : nat) :
  forall n acc,
    0 <= n < 10 ^ Z.of_nat fuel ->
    digits_value_aux (digits_fuel fuel n acc) 0 = digits_value_aux acc n.
Proof.
  induction fuel as [|fuel IH]; intros n acc Hn.
  - simpl in *. replace n with 0 by lia. reflexivity.
  - cbn [digits_fuel].
    assert (Hd : 0 <= n mod 10 < 10) by (apply Z.mod_pos_bound; lia).
    destruct (n <? 10) eqn:Elt.
    + apply Z.ltb_lt in Elt.
      cbn [digits_value_aux]. rewrite (digit_char_value _ Hd).
      rewrite Z.mod_small by lia. f_equal.
    + apply Z.ltb_ge in Elt.
      rewrite IH.
      * cbn [digits_value_aux]. rewrite (digit_char_value _ Hd).
        f_equal. pose proof (Z.div_mod n 10). lia.
      * rewrite Nat2Z.inj_succ, Z.pow_succ_r in Hn by lia.
        split; [apply Z.div_pos; lia |].
        apply Z.div_lt_upper_bound; lia.
Qed.

(** [int(str(n)) = n]: the fuel of [str_nat] suffices. *)
Lemma str_nat_value (n : Z) : 0 <= n -> digits_value (str_nat n) = n.
Proof.
  intros Hn. unfold digits_value, str_nat.
  rewrite digits_fuel_value; [reflexivity |].
  split; [assumption |].
  rewrite Nat2Z.inj_succ, Z2Nat.id by apply Z.log2_nonneg.
  destruct (Z.eq_dec n 0) as [-> | Hne]; [reflexivity |].
  pose proof (Z.log2_spec n ltac:(lia)) as [_ Hhi].
  assert (Hpow : 2 ^ Z.succ (Z.log2 n) <= 10 ^ Z.succ (Z.log2 n)).
  { apply Z.pow_le_mono_l. lia. }
  lia.
Qed.

Lemma digit_not_space (c : ascii) : is_digit c = true -> c <> " "%char.
Proof. intros H E. subst c. discriminate H. Qed.

Lemma digit_not_point (c : ascii) : is_digit c = true -> c <> "."%char.
Proof. intros H E. subst c. discriminate H. Qed.

Lemma digits_no_space (s : string) :
  Forall (fun c => is_digit c = true) (chars s) -> no_space s.
Proof.
  intros H Hin. rewrite Forall_forall in H.
  apply (digit_not_space _ (H _ Hin)). reflexivity.
Qed.

Lemma no_space_app (a b : string) :
  no_space a -> no_space b -> no_space (a ++ b).
Proof.
  unfold no_space. intros Ha Hb. rewrite chars_app, in_app_iff. tauto.
Qed.

(** Reading a field that holds no space appends it to the field under
    construction. *)
Lemma split_space_aux_field (f rest cur : string) :
  no_space f ->
  split_space_aux (f ++ rest) cur = split_space_aux rest (cur ++ f).
Proof.
  revert cur.
  induction f as [|c f IH]; intros cur Hf; simpl.
  - now rewrite append_empty_r.
  - unfold no_space in Hf. simpl in Hf.
    destruct (Ascii.eqb c " ") eqn:E.
    + apply Ascii.eqb_eq in E. subst c. exfalso. apply Hf. now left.
    + rewrite IH.
      * now rewrite append_assoc.
      * intros Hin. apply Hf. now right.
Qed.

Lemma split_space_aux_space (rest cur : string) :
  split_space_aux (String " "%char rest) cur = cur :: split_space_aux rest "".
Proof. reflexivity. Qed.

Lemma split_space_aux_join (f : string) (fs : list string) (cur : string) :
  Forall no_space (f :: fs) ->
  split_space_aux (join " " (f :: fs)) cur = (cur ++ f) :: fs.
Proof.
  revert f cur.
  induction fs as [|g fs IH]; intros f cur Hall.
  - simpl. rewrite <- (append_empty_r f) at 1.
    rewrite split_space_aux_field; [reflexivity |].
    now inversion Hall.
  - change (join " " (f :: g :: fs)) with (f ++ " " ++ join " " (g :: fs)).
    inversion Hall as [|? ? Hf Hrest]; subst.
    rewrite split_space_aux_field by assumption.
    change (" " ++ join " " (g :: fs))
      with (String " "%char (join " " (g :: fs))).
    rewrite split_space_aux_space, (IH g "" Hrest). reflexivity.
Qed.

(** Splitting a joined line gives the fields back. *)
Lemma split_space_join (fields : list string) :
  Forall no_space fields -> fields <> [] ->
  split_space (join " " fields) = fields.
Proof.
  intros Hall Hne. destruct fields as [|f fs]; [congruence |].
  unfold split_space. now rewrite split_space_aux_join.
Qed.

End TextFacts.

(** ** The [%.Nf] rendering *)

Module FloatFacts.
Import PyText PyFloat TextFacts.

(** Rounding moves a value by at most one half. *)
Lemma round_half_even_near (q : Q) :
  (Qabs (q - inject_Z (round_half_even q)) <= 1 # 2)%Q.
Proof.
  unfold round_half_even. cbv zeta.
  pose proof (Qfloor_le q) as Hlo.
  pose proof (Qlt_floor q) as Hhi.
  apply Qabs_Qle_condition.
  destruct (Qcompare (q - inject_Z (Qfloor q)) (1 # 2)) eqn:E;
    [apply Qeq_alt in E; destruct (Z.even (Qfloor q))
    | apply Qlt_alt in E | apply Qgt_alt in E];
    rewrite ?inject_Z_plus in *; change (inject_Z 1) with 1%Q in *;
    remember (inject_Z (Qfloor q)) as f; split; lra.
Qed.

(** A finite value under [%.Nf], [N > 0]: an optional sign, the integer
    digits, a point, and exactly [N] digits. *)
Lemma format_f_finite (prec : nat) (m e : Z) :
  exists sign whole frac,
    format_f (S prec) (F_fin m e) = sign ++ whole ++ "." ++ frac
    /\ (sign = "" \/ sign = "-")
    /\ all_digits whole
    /\ all_digits frac
    /\ String.length frac = S prec.
Proof.
  unfold format_f.
  set (p := 10 ^ Z.of_nat (S prec)).
  set (scaled := round_half_even (magnitude m e * inject_Z p)).
  exists (if m <? 0 then "-" else ""), (str_nat (scaled / p)),
         (pad_digits (S prec) (scaled mod p)).
  split; [reflexivity |].
  split; [destruct (m <? 0); auto |].
  split; [apply str_nat_digits |].
  split; [apply pad_digits_digits | apply pad_digits_length].
Qed.

(** The renderings on values whose Python output is known. *)
Example repr_sample : repr (F_fin 11629993 (-14)) = "709.8384399414062".
Proof. vm_compute. reflexivity. Qed.

Example repr_tenth : repr (F_fin 3602879701896397 (-55)) = "0.1".
Proof. vm_compute. reflexivity. Qed.

Example repr_float32_tenth :
  repr (F_fin 13421773 (-27)) = "0.10000000149011612".
Proof. vm_compute. reflexivity. Qed.

Example repr_whole : repr (F_fin 25 2) = "100.0".
Proof. vm_compute. reflexivity. Qed.

Example repr_large : repr (F_fin 5 16 ) = "327680.0".
Proof. vm_compute. reflexivity. Qed.

Example repr_exponent : repr (F_fin 1 (-30)) = "9.313225746154785e-10".
Proof. vm_compute. reflexivity. Qed.

Example format_f_sample : format_f 8 (F_fin 11629993 (-14)) = "709.83843994".
Proof. vm_compute. reflexivity. Qed.

Example format_f_negative : format_f 8 (F_fin (-5) (-1)) = "-2.50000000".
Proof. vm_compute. reflexivity. Qed.

Example format_f_ties_to_even :
  format_f 0 (F_fin 1 (-1)) = "0" /\ format_f 0 (F_fin 3 (-1)) = "2".
Proof. vm_compute. split; reflexivity. Qed.

Lemma all_digits_forallb (s : string) :
  all_digits s -> forallb is_digit (chars s) = true.
Proof.
  unfold all_digits. intros H. apply forallb_forall.
  now rewrite Forall_forall in H.
Qed.

Lemma format_f_no_space (prec : nat) (v : float) : no_space (format_f prec v).
Proof.
  destruct v as [| negative | m e].
  - unfold no_space; simpl; intuition discriminate.
  - destruct negative; unfold no_space; simpl; intuition discriminate.
  - unfold format_f.
    apply no_space_app.
    { destruct (m <? 0); unfold no_space; simpl; intuition discriminate. }
    apply no_space_app; [apply digits_no_space, str_nat_digits |].
    destruct prec as [|prec]; [unfold no_space; simpl; tauto |].
    apply no_space_app.
    + unfold no_space; simpl; intuition discriminate.
    + apply digits_no_space, pad_digits_digits.
Qed.

End FloatFacts.

(** ** Matrices and the sampler *)

Module MatFacts.
Import PyFloat sl.

Lemma has_size_rows {P : Type} (m : Mat P) (w h : Z) :
  has_size m w h = true ->
  Z.of_nat (List.length m) = h
  /\ Forall (fun row => Z.of_nat (List.length row) = w) m.
Proof.
  unfold has_size. intros H.
  apply andb_true_iff in H. destruct H as [Hh Hw].
  split; [now apply Z.eqb_eq |].
  apply Forall_forall. intros row Hin.
  rewrite forallb_forall in Hw. now apply Z.eqb_eq, Hw.
Qed.

Lemma has_size_height {P : Type} (m : Mat P) (w h : Z) :
  has_size m w h = true -> get_height m = h.
Proof. intros H. now destruct (has_size_rows m w h H). Qed.

Lemma has_size_width {P : Type} (m : Mat P) (w h : Z) :
  has_size m w h = true -> 0 < h -> get_width m = w.
Proof.
  intros H Hpos. destruct (has_size_rows m w h H) as [Hh Hw].
  destruct m as [|row rest]; simpl in *; [lia |].
  now inversion Hw.
Qed.

(** Inside a [w] x [h] matrix every pixel exists. *)
Lemma pixel_in_bounds {P : Type} (m : Mat P) (w h x y : Z) :
  has_size m w h = true -> 0 <= x < w -> 0 <= y < h ->
  exists row v,
    nth_error m (Z.to_nat y) = Some row
    /\ nth_error row (Z.to_nat x) = Some v
    /\ pixel m x y = Some v.
Proof.
  intros H Hx Hy. destruct (has_size_rows m w h H) as [Hh Hw].
  destruct (nth_error m (Z.to_nat y)) as [row|] eqn:Erow.
  2: { apply nth_error_None in Erow. lia. }
  assert (Hlen : Z.of_nat (List.length row) = w).
  { rewrite Forall_forall in Hw. apply Hw. eapply nth_error_In; eauto. }
  destruct (nth_error row (Z.to_nat x)) as [v|] eqn:Ev.
  2: { apply nth_error_None in Ev. lia. }
  exists row, v. split; [reflexivity |]. split; [exact Ev |].
  unfold pixel.
  replace (x <? 0) with false by (symmetry; apply Z.ltb_ge; lia).
  replace (y <? 0) with false by (symmetry; apply Z.ltb_ge; lia).
  rewrite Erow. cbn [orb]. exact Ev.
Qed.

Lemma get_value_in_bounds (m : Mat F32_C1) (w h x y : Z) :
  has_size m w h = true -> 0 <= x < w -> 0 <= y < h ->
  exists v, sl.get_value m x y = inl (ERROR_CODE.SUCCESS, v)
            /\ pixel m x y = Some v.
Proof.
  intros H Hx Hy.
  destruct (pixel_in_bounds m w h x y H Hx Hy) as (row & v & _ & _ & Hp).
  exists v. split; [| exact Hp].
  unfold sl.get_value.
  rewrite (has_size_width m w h H) by lia.
  rewrite (has_size_height m w h H), Hp.
  replace (0 <=? x) with true by (symmetry; apply Z.leb_le; lia).
  replace (x <? w) with true by (symmetry; apply Z.ltb_lt; lia).
  replace (0 <=? y) with true by (symmetry; apply Z.leb_le; lia).
  replace (y <? h) with true by (symmetry; apply Z.ltb_lt; lia).
  reflexivity.
Qed.

Lemma get_value_returned (m : Mat F32_C1) (x y : Z) (st : ERROR_CODE.t)
    (v : float) :
  sl.get_value m x y = inl (st, v) ->
  st = ERROR_CODE.SUCCESS /\ pixel m x y = Some v
  /\ 0 <= x < get_width m /\ 0 <= y < get_height m.
Proof.
  unfold sl.get_value.
  destruct ((0 <=? x) && (x <? get_width m) && (0 <=? y)
            && (y <? get_height m)) eqn:B; [| discriminate].
  destruct (pixel m x y) as [v'|]; [| discriminate].
  intros E. inversion E; subst.
  repeat (apply andb_true_iff in B; destruct B as [B ?]).
  rewrite Z.leb_le in *. rewrite Z.ltb_lt in *.
  repeat split; auto.
Qed.

Lemma get_value_failed (m : Mat F32_C1) (x y : Z) (e : Exn) :
  sl.get_value m x y = inr e -> e = RangeError.
Proof.
  unfold sl.get_value.
  destruct ((0 <=? x) && (x <? get_width m) && (0 <=? y)
            && (y <? get_height m)).
  - destruct (pixel m x y); [discriminate | now intros E; inversion E].
  - now intros E; inversion E.
Qed.

Lemma get_value_out_of_bounds (m : Mat F32_C1) (x y : Z) :
  ~ (0 <= x < get_width m /\ 0 <= y < get_height m) ->
  sl.get_value m x y = inr RangeError.
Proof.
  intros H.
  destruct (sl.get_value m x y) as [[st v]|e] eqn:E.
  - exfalso. apply H. apply get_value_returned in E. tauto.
  - now rewrite (get_value_failed m x y e E).
Qed.

End MatFacts.

(** ** Every run follows one of the five paths *)

Module ScriptFacts.
Import PyText PyFloat sl Script MatFacts.

(** Evaluate the script, leaving the collaborators' answers and the text
    renderings folded. *)
Ltac evaluate :=
  cbv beta iota zeta delta
    -[str_int join PyFloat.repr format_f sl.get_value get_width get_height
      savetxt_lines str_sample str_shape String.append newline script_config
      dev_open dev_grab dev_frame dev_serial_number dev_mat_info
      cv2_draw_circle frame_depth frame_view frame_xyzrgba frame_timestamp
      x_value y_value milliseconds pixel_bytes data_type infos step_bytes
      first_entry sample_line marked_image export_name
      F32_C1 F32_C4 U8_C4 Mat].

Ltac conclude P Eopen Egrab :=
  let H := fresh "P" in
  pose proof P as H;
  unfold log_configure, log_grab in H;
  rewrite ?Eopen, ?Egrab in H;
  exact H.

Lemma run_path (env : Env) : Path env (outcome env) (final env).
Proof.
  unfold outcome, final, run, main.
  evaluate. fold script_config.
  destruct (dev_open env script_config) eqn:Eopen;
    try (evaluate; conclude (open_failed env ltac:(congruence)) Eopen Eopen).
  evaluate.
  destruct (dev_grab env) eqn:Egrab.
  2-6: cbv delta [first_entry]; evaluate;
       conclude (grab_failed env Eopen ltac:(congruence)) Eopen Egrab.
  evaluate.
  destruct (first_entry (frame_depth (dev_frame env))) as [v|] eqn:Efirst.
  2: { evaluate.
       conclude (depth_without_first_entry env Eopen Egrab Efirst)
                Eopen Egrab. }
  evaluate.
  destruct (sl.get_value (frame_depth (dev_frame env)) x_value y_value)
    as [sample|e] eqn:Esample.
  - evaluate.
    conclude (completed env v sample Eopen Egrab Efirst Esample) Eopen Egrab.
  - evaluate.
    conclude (sample_failed env v e Eopen Egrab Efirst Esample) Eopen Egrab.
Qed.

(** A sample can only be returned from a matrix that has an entry [0][0]. *)
Lemma first_entry_of_sample (m : Mat F32_C1) (x y : Z)
    (s : ERROR_CODE.t * float) :
  sl.get_value m x y = inl s -> exists v, first_entry m = Some v.
Proof.
  destruct s as [st v]. intros H.
  apply get_value_returned in H. destruct H as (_ & _ & Hx & _).
  destruct m as [|[|v0 row] rest]; simpl in Hx; try lia.
  now exists v0.
Qed.

Lemma run_completed (env : Env) (sample : ERROR_CODE.t * float) :
  dev_open env script_config = ERROR_CODE.SUCCESS ->
  dev_grab env = ERROR_CODE.SUCCESS ->
  sl.get_value (frame_depth (dev_frame env)) x_value y_value = inl sample ->
  outcome env = Ok tt
  /\ final env = world_with_frame env Closed (marked_image env)
                   (log_completed env sample).
Proof.
  intros Ho Hg Hs.
  destruct (run_path env) as [Hno | _ Hng | _ _ Hf | v e _ _ _ He
                              | v s' _ _ _ Hs'].
  - contradiction.
  - contradiction.
  - destruct (first_entry_of_sample _ _ _ _ Hs) as [v Hv]. congruence.
  - congruence.
  - assert (s' = sample) by congruence. subst s'. split; reflexivity.
Qed.

Lemma run_sample_failed (env : Env) (v : float) :
  dev_open env script_config = ERROR_CODE.SUCCESS ->
  dev_grab env = ERROR_CODE.SUCCESS ->
  first_entry (frame_depth (dev_frame env)) = Some v ->
  sl.get_value (frame_depth (dev_frame env)) x_value y_value
    = inr RangeError ->
  outcome env = Raised RangeError
  /\ final env = world_with_frame env Grabbed
                   (frame_view (dev_frame env) VIEW.LEFT)
                   (log_configure env ++ log_grab env ++ log_retrieve env
                      ++ log_inspect env (frame_depth (dev_frame env))
                      ++ log_sample_call).
Proof.
  intros Ho Hg Hf Hs.
  destruct (run_path env) as [Hno | _ Hng | _ _ Hf' | v' e _ _ _ He
                              | v' s' _ _ _ Hs'].
  - contradiction.
  - contradiction.
  - congruence.
  - assert (e = RangeError) by congruence. subst e. split; reflexivity.
  - congruence.
Qed.

Lemma run_open_failed (env : Env) :
  dev_open env script_config <> ERROR_CODE.SUCCESS ->
  outcome env = Exited
  /\ final env = world_unopened (log_configure env ++ [EvExit]).
Proof.
  intros Ho.
  destruct (run_path env); try contradiction. split; reflexivity.
Qed.

Lemma run_grab_failed (env : Env) :
  dev_open env script_config = ERROR_CODE.SUCCESS ->
  dev_grab env <> ERROR_CODE.SUCCESS ->
  outcome env = Raised IndexError
  /\ final env = world_no_frame
                   (log_configure env ++ log_grab env
                      ++ log_inspect env Mat_empty).
Proof.
  intros Ho Hg.
  destruct (run_path env); try contradiction. split; reflexivity.
Qed.

(** Soundness of the left-to-right scan. *)
Lemma retrievals_guarded_sound (t : list Event) :
  forall grabbed pre e post,
    retrievals_guarded grabbed t = true ->
    t = (pre ++ e :: post)%list ->
    is_retrieval e = true ->
    grabbed = true \/ In (EvGrab ERROR_CODE.SUCCESS) pre.
Proof.
  induction t as [|a t IH]; intros grabbed pre e post Hg Ht He.
  - destruct pre; discriminate.
  - destruct pre as [|b pre]; simpl in Ht; inversion Ht; subst.
    + left. destruct e; simpl in He; try discriminate; simpl in Hg;
        apply andb_true_iff in Hg; tauto.
    + assert (Hrest : exists g',
                retrievals_guarded g' (pre ++ e :: post) = true
                /\ (g' = true -> grabbed = true
                                 \/ b = EvGrab ERROR_CODE.SUCCESS)).
      { destruct b as [ | | | | code | | | | | | | | | | | | | ];
          simpl in Hg;
          try (try (apply andb_true_iff in Hg; destruct Hg as [_ Hg]);
               exists grabbed; split; [exact Hg | tauto]).
        exists (grabbed || ERROR_CODE.eqb code ERROR_CODE.SUCCESS).
        split; [exact Hg |].
        intros Hor. apply orb_true_iff in Hor. destruct Hor as [H1 | H1];
          [now left | right].
        destruct code; try discriminate. reflexivity. }
      destruct Hrest as (g' & Hg' & Himp).
      destruct (IH g' pre e post Hg' eq_refl He) as [Ht' | Hin].
      * destruct (Himp Ht') as [? | ?]; [now left | right; now left].
      * right. now right.
Qed.

(** The exported lines, row by row. *)
Lemma savetxt_lines_length (fmt : Fmt) (m : Mat F32_C1) :
  List.length (savetxt_lines fmt m) = List.length m.
Proof. unfold savetxt_lines. apply length_map. Qed.

Lemma savetxt_lines_nth (fmt : Fmt) (m : Mat F32_C1) (y : nat)
    (row : list F32_C1) :
  nth_error m y = Some row ->
  nth_error (savetxt_lines fmt m) y
    = Some (join " " (map (apply_fmt fmt) row)).
Proof.
  intros H. unfold savetxt_lines.
  exact (map_nth_error (fun r => join " " (map (apply_fmt fmt) r)) y m H).
Qed.

(** A line of a non-empty row splits back into the rendered entries. *)
Lemma exported_line_fields (precision : nat) (row : list F32_C1) :
  row <> [] ->
  split_space (join " " (map (apply_fmt (percent_f precision)) row))
    = map (format_f precision) row.
Proof.
  intros Hne. simpl apply_fmt.
  apply TextFacts.split_space_join.
  - apply Forall_forall. intros f Hin. apply in_map_iff in Hin.
    destruct Hin as (v & <- & _). apply FloatFacts.format_f_no_space.
  - destruct row; [congruence | discriminate].
Qed.

End ScriptFacts.

(** ** Traces, printed lines and exported entries *)

Module RunFacts.
Import PyText PyFloat sl Script Script.Examples.
Import TextFacts FloatFacts MatFacts ScriptFacts.

Lemma Forall_not {A : Type} (f : A -> bool) (l : list A) :
  forallb (fun x => negb (f x)) l = true -> Forall (fun x => f x = false) l.
Proof.
  intros H. apply Forall_forall. intros x Hin.
  rewrite forallb_forall in H. apply negb_true_iff. now apply H.
Qed.

(** Along every path the scan accepts the trace. *)
Lemma trace_retrievals_guarded (env : Env) :
  retrievals_guarded false (trace env) = true.
Proof.
  unfold trace.
  destruct (run_path env) as [Hno | Ho Hng | Ho Hg Hf | v e Ho Hg Hf He
                              | v s Ho Hg Hf Hs];
    unfold world_unopened, world_no_frame, world_with_frame, log,
           log_configure, log_grab;
    try rewrite Hg.
  - reflexivity.
  - destruct (dev_grab env); reflexivity.
  - reflexivity.
  - reflexivity.
  - reflexivity.
Qed.

(** Nothing follows the last element of a list that holds [EvClose] only
    at its end. *)
Lemma close_at_end (p0 pre post : list Event) :
  Forall (fun e => is_close e = false) p0 ->
  (p0 ++ [EvClose])%list = (pre ++ EvClose :: post)%list ->
  post = [].
Proof.
  revert pre.
  induction p0 as [|a p0 IH]; intros pre Hno Heq.
  - destruct pre as [|b pre]; simpl in Heq.
    + now inversion Heq.
    + inversion Heq as [[Hb Hrest]]. destruct pre; discriminate.
  - inversion Hno as [|? ? Ha Hno']; subst.
    destruct pre as [|b pre]; simpl in Heq; inversion Heq; subst.
    + discriminate.
    + eapply IH; eauto.
Qed.

Lemma no_close_no_split (t pre post : list Event) :
  Forall (fun e => is_close e = false) t ->
  t <> (pre ++ EvClose :: post)%list.
Proof.
  intros Hno Heq. subst t.
  apply Forall_app in Hno. destruct Hno as [_ Hno].
  inversion Hno. discriminate.
Qed.

(** The shape of a trace with respect to [close]. *)
Lemma trace_close_shape (env : Env) :
  (outcome env <> Ok tt
   /\ Forall (fun e => is_close e = false) (trace env))
  \/ (outcome env = Ok tt
      /\ zed (final env) = Closed
      /\ exists p0, trace env = (p0 ++ [EvClose])%list
                    /\ Forall (fun e => is_close e = false) p0).
Proof.
  unfold trace.
  destruct (run_path env) as [Hno | Ho Hng | Ho Hg Hf | v e Ho Hg Hf He
                              | v s Ho Hg Hf Hs];
    unfold world_unopened, world_no_frame, world_with_frame, log, zed.
  1-4: left; split; [discriminate | apply Forall_not; reflexivity].
  right. split; [reflexivity |]. split; [reflexivity |].
  exists (log_configure env ++ log_grab env ++ log_retrieve env
            ++ log_inspect env (frame_depth (dev_frame env))
            ++ log_sample_call ++ [EvPrint (sample_line s)]
            ++ log_display env
            ++ [EvSavetxt (export_name env)
                  (savetxt_lines (percent_f 8)
                     (frame_depth (dev_frame env)))])%list.
  split; [| apply Forall_not; reflexivity].
  unfold log_export. repeat rewrite <- app_assoc. reflexivity.
Qed.

Lemma in_filter_get_value (e : Event) (t : list Event) :
  In e t -> is_get_value e = true -> In e (filter is_get_value t).
Proof. intros Hin He. apply filter_In. now split. Qed.

Lemma stdout_app (a b : list Event) :
  stdout (a ++ b) = (stdout a ++ stdout b)%list.
Proof.
  induction a as [|e a IH]; simpl; [reflexivity |].
  destruct e; simpl; now rewrite IH.
Qed.

Lemma files_app (a b : list Event) :
  files (a ++ b) = (files a ++ files b)%list.
Proof.
  induction a as [|e a IH]; simpl; [reflexivity |].
  destruct e; simpl; now rewrite IH.
Qed.

(** The only file of a completed run is the depth export. *)
Lemma files_completed (env : Env) (sample : ERROR_CODE.t * float) :
  files (log_completed env sample)
    = [(export_name env,
        savetxt_lines (percent_f 8) (frame_depth (dev_frame env)))].
Proof.
  unfold log_completed. repeat rewrite files_app. reflexivity.
Qed.

Lemma stdout_completed (env : Env) (sample : ERROR_CODE.t * float) :
  In (sample_line sample) (stdout (log_completed env sample)).
Proof.
  unfold log_completed. repeat rewrite stdout_app.
  repeat rewrite in_app_iff. do 5 right. left. now left.
Qed.

Lemma sample_line_709 :
  sample_line (ERROR_CODE.SUCCESS, depth_709)
    = "The depth of the 1000 600 is (SUCCESS, 709.8384399414062)".
Proof. vm_compute. reflexivity. Qed.

Lemma format_f_709 : format_f 8 depth_709 = "709.83843994".
Proof. vm_compute. reflexivity. Qed.

(** The entry of the export that belongs to pixel [(x, y)]. *)
Lemma exported_entry (m : Mat F32_C1) (x y : Z) (v : float) :
  pixel m x y = Some v ->
  exists line,
    nth_error (savetxt_lines (percent_f 8) m) (Z.to_nat y) = Some line
    /\ nth_error (split_space line) (Z.to_nat x) = Some (format_f 8 v).
Proof.
  unfold pixel. destruct ((x <? 0) || (y <? 0)); [discriminate |].
  destruct (nth_error m (Z.to_nat y)) as [row|] eqn:Erow; [| discriminate].
  intros Hv.
  exists (join " " (map (apply_fmt (percent_f 8)) row)).
  split; [now apply savetxt_lines_nth |].
  rewrite exported_line_fields.
  - exact (map_nth_error (format_f 8) (Z.to_nat x) row Hv).
  - intros ->. destruct (Z.to_nat x); discriminate.
Qed.

(** Line by line, the export splits back into the rendered rows. *)
Lemma exported_lines_fields (m : Mat F32_C1) (w : Z) :
  0 < w ->
  Forall (fun row => Z.of_nat (List.length row) = w) m ->
  Forall2 (fun line row =>
             split_space line = map (format_f 8) row
             /\ List.length (split_space line) = Z.to_nat w)
          (savetxt_lines (percent_f 8) m) m.
Proof.
  intros Hpos Hw. unfold savetxt_lines.
  induction Hw as [|row rows Hrow Hrows IH]; simpl; constructor.
  - assert (Hne : row <> []) by (intros ->; simpl in Hrow; lia).
    rewrite (exported_line_fields 8 row Hne).
    split; [reflexivity |]. rewrite length_map.
    unfold F32_C1 in *. lia.
  - apply IH.
Qed.

(** Line by line, whatever the sizes of the rows: a line is the join of
    the rendered entries, and it splits back into them unless the row is
    empty. *)
Lemma exported_lines_rows (m : Mat F32_C1) :
  Forall2 (fun line row =>
             line = join " " (map (format_f 8) row)
             /\ (row <> [] -> split_space line = map (format_f 8) row))
          (savetxt_lines (percent_f 8) m) m.
Proof.
  unfold savetxt_lines.
  induction m as [|row rows IH]; simpl; constructor; [| exact IH].
  split; [reflexivity |].
  intros Hne. exact (exported_line_fields 8 row Hne).
Qed.

Lemma decimals_skip (a b : string) :
  Forall (fun c => c <> "."%char) (chars a) ->
  decimals (a ++ b) = decimals b.
Proof.
  induction a as [|c a IH]; intros H; simpl; [reflexivity |].
  inversion H as [|? ? Hc Hrest]; subst.
  destruct (Ascii.eqb c ".") eqn:E.
  - apply Ascii.eqb_eq in E. contradiction.
  - now apply IH.
Qed.

Lemma digits_no_point (s : string) :
  all_digits s -> Forall (fun c => c <> "."%char) (chars s).
Proof.
  unfold all_digits. intros H.
  eapply Forall_impl; [| exact H]. intros c. apply digit_not_point.
Qed.

(** A finite value under [%.8f] shows eight decimals. *)
Lemma decimals_format_f (prec : nat) (m e : Z) :
  decimals (format_f (S prec) (F_fin m e)) = Some (S prec).
Proof.
  destruct (format_f_finite prec m e)
    as (sign & whole & frac & -> & Hsign & Hwhole & Hfrac & Hlen).
  rewrite decimals_skip.
  2: { destruct Hsign as [-> | ->]; simpl; repeat constructor; discriminate. }
  rewrite decimals_skip by now apply digits_no_point.
  simpl. rewrite (all_digits_forallb frac Hfrac), Hlen. reflexivity.
Qed.

Lemma in_repeat_head {A : Type} (x : A) (n : nat) : In x (repeat x (S n)).
Proof. now left. Qed.

End RunFacts.

(** * The claims *)

Import PyText PyFloat sl Script Script.Examples.
Import TextFacts FloatFacts MatFacts ScriptFacts RunFacts.

(** C1 (the script at a failing grab): when [grab()] answers
    END_OF_SVOFILE_REACHED the five retrieval calls are skipped and [grab()]
    is not called again, but the script goes on to read the four buffers,
    to query and print the metadata and the shape of the (empty) depth
    buffer, and it stops with IndexError at [depth_data[0][0]]: the steps
    that depend on the frame bundle are not skipped, nothing is exported and
    the session is left open. *)
Theorem C1_grab_failure_still_reads_the_buffers :
  dev_grab env_grab_fails = ERROR_CODE.END_OF_SVOFILE_REACHED
  /\ outcome env_grab_fails = Raised IndexError
  /\ trace env_grab_fails
     = (log_configure env_grab_fails ++ log_grab env_grab_fails
          ++ log_inspect env_grab_fails Mat_empty)%list
  /\ filter uses_frame (trace env_grab_fails)
     = [EvGetData image; EvGetData depth; EvGetData depth_view;
        EvGetData point; EvMatInfo depth; EvMatInfo depth; EvMatInfo depth;
        EvMatInfo depth]
  /\ filter is_grab (trace env_grab_fails)
     = [EvGrab ERROR_CODE.END_OF_SVOFILE_REACHED]
  /\ In (EvPrint "(0, 0)") (trace env_grab_fails)
  /\ files (trace env_grab_fails) = []
  /\ zed (final env_grab_fails) = Opened.
Proof.
  vm_compute. repeat split. do 17 right. now left.
Qed.

(** C2 as the claim states it fails: for the camera [env_hd1080], whose
    depth at pixel (1000, 600) is 709.8384399414062, the printed output is
    not the sample line with the value at eight decimals. *)
Lemma C2_counterexample :
  sl.get_value (frame_depth (dev_frame env_hd1080)) x_value y_value
    = inl (ERROR_CODE.SUCCESS, depth_709)
  /\ sample_line_8_decimals (ERROR_CODE.SUCCESS, depth_709)
     = "The depth of the 1000 600 is (SUCCESS, 709.83843994)"
  /\ ~ In (sample_line_8_decimals (ERROR_CODE.SUCCESS, depth_709))
          (stdout (trace env_hd1080)).
Proof.
  assert (Hs : sl.get_value (frame_depth (dev_frame env_hd1080))
                 x_value y_value = inl (ERROR_CODE.SUCCESS, depth_709))
    by (vm_compute; reflexivity).
  split; [exact Hs |].
  split; [vm_compute; reflexivity |].
  destruct (run_completed env_hd1080 _ eq_refl eq_refl Hs) as [_ Hfin].
  unfold trace. rewrite Hfin.
  unfold world_with_frame. cbn [log].
  lazy.
  intros H.
  repeat (destruct H as [H | H]; [discriminate H |]).
  exact H.
Qed.

(** C2 (amended): with the depth 709.8384399414062 at pixel (1000, 600),
    the script prints the sample as the tuple
    [(SUCCESS, 709.8384399414062)], the value in full, and the exported file
    holds [709.83843994], the value rounded to eight decimals, as field 1000
    of line 600. *)
Theorem C2_sample_printed_in_full_exported_rounded (env : Env) :
  dev_open env script_config = ERROR_CODE.SUCCESS ->
  dev_grab env = ERROR_CODE.SUCCESS ->
  sl.get_value (frame_depth (dev_frame env)) x_value y_value
    = inl (ERROR_CODE.SUCCESS, depth_709) ->
  In "The depth of the 1000 600 is (SUCCESS, 709.8384399414062)"
     (stdout (trace env))
  /\ exists lines line,
       files (trace env) = [(export_name env, lines)]
       /\ nth_error lines 600 = Some line
       /\ nth_error (split_space line) 1000 = Some "709.83843994".
Proof.
  intros Ho Hg Hs.
  destruct (run_completed env _ Ho Hg Hs) as [_ Hfin].
  unfold trace. rewrite Hfin.
  unfold world_with_frame. cbn [log].
  split.
  - rewrite <- sample_line_709. apply stdout_completed.
  - apply get_value_returned in Hs. destruct Hs as (_ & Hp & _).
    destruct (exported_entry _ _ _ _ Hp) as (line & Hline & Hfield).
    exists (savetxt_lines (percent_f 8) (frame_depth (dev_frame env))), line.
    split; [apply files_completed |].
    rewrite format_f_709 in Hfield.
    split; [exact Hline | exact Hfield].
Qed.

Lemma C2_witness :
  dev_open env_hd1080 script_config = ERROR_CODE.SUCCESS
  /\ dev_grab env_hd1080 = ERROR_CODE.SUCCESS
  /\ sl.get_value (frame_depth (dev_frame env_hd1080)) x_value y_value
     = inl (ERROR_CODE.SUCCESS, depth_709)
  /\ In "The depth of the 1000 600 is (SUCCESS, 709.8384399414062)"
        (stdout (trace env_hd1080))
  /\ exists lines line,
       files (trace env_hd1080) = [("1709651329565.txt", lines)]
       /\ nth_error lines 600 = Some line
       /\ nth_error (split_space line) 1000 = Some "709.83843994".
Proof.
  assert (Hs : sl.get_value (frame_depth (dev_frame env_hd1080))
                 x_value y_value = inl (ERROR_CODE.SUCCESS, depth_709))
    by (vm_compute; reflexivity).
  split; [reflexivity |]. split; [reflexivity |]. split; [exact Hs |].
  exact (C2_sample_printed_in_full_exported_rounded env_hd1080
           eq_refl eq_refl Hs).
Defined.

(** C3: when the sampler is called with coordinates outside the bounds of
    the depth matrix, the sample fails with RangeError, the run ends with
    that error on the sampler call, and no file has been written. *)
Theorem C3_out_of_bounds_sample_exports_nothing (env : Env) (x y : Z) :
  In (EvGetValue depth x y) (trace env) ->
  ~ (0 <= x < get_width (depth_mat (final env))
     /\ 0 <= y < get_height (depth_mat (final env))) ->
  sl.get_value (depth_mat (final env)) x y = inr RangeError
  /\ outcome env = Raised RangeError
  /\ files (trace env) = []
  /\ exists pre, trace env = (pre ++ [EvGetValue depth x y])%list.
Proof.
  unfold trace. intros Hin Hout.
  pose proof (in_filter_get_value _ _ Hin eq_refl) as Hf.
  split; [now apply get_value_out_of_bounds |].
  revert Hin Hout Hf.
  destruct (run_path env) as [Hno | Ho Hng | Ho Hg Hfe | v e Ho Hg Hfe He
                              | v s Ho Hg Hfe Hs];
    unfold world_unopened, world_no_frame, world_with_frame, log, depth_mat;
    intros Hin Hout Hf.
  - exfalso. exact Hf.
  - exfalso. exact Hf.
  - exfalso. exact Hf.
  - destruct Hf as [Hf | []]. inversion Hf; subst x y.
    rewrite (get_value_failed _ _ _ _ He).
    split; [reflexivity |]. split; [reflexivity |].
    eexists. unfold log_sample_call.
    repeat rewrite app_assoc.
    change [EvPrint "<class 'numpy.float32'>";
            EvGetValue depth x_value y_value]
      with ([EvPrint "<class 'numpy.float32'>"]
              ++ [EvGetValue depth x_value y_value])%list.
    rewrite app_assoc. reflexivity.
  - exfalso. destruct Hf as [Hf | []]. inversion Hf; subst x y.
    destruct s as [st val]. apply get_value_returned in Hs. tauto.
Qed.

Lemma C3_witness :
  In (EvGetValue depth 1000 600) (trace env_vga)
  /\ ~ (0 <= 1000 < get_width (depth_mat (final env_vga))
        /\ 0 <= 600 < get_height (depth_mat (final env_vga)))
  /\ outcome env_vga = Raised RangeError
  /\ files (trace env_vga) = [].
Proof.
  assert (Hin : In (EvGetValue depth 1000 600) (trace env_vga)).
  { vm_compute. do 25 right. now left. }
  assert (Hout : ~ (0 <= 1000 < get_width (depth_mat (final env_vga))
                    /\ 0 <= 600 < get_height (depth_mat (final env_vga)))).
  { vm_compute. intros [[_ H] _]. discriminate H. }
  split; [exact Hin |]. split; [exact Hout |].
  destruct (C3_out_of_bounds_sample_exports_nothing env_vga 1000 600
              Hin Hout) as (_ & Ho & Hf & _).
  split; [exact Ho | exact Hf].
Defined.




(** C5: when [zed.open(init_params)] answers a code other than SUCCESS the
    script ends at once: the only call after [open] is [exit()], so no grab,
    retrieval, sampling, display or export is attempted and the session
    stays unopened. *)
Theorem C5_open_failure_exits_at_once (env : Env) :
  dev_open env script_config <> ERROR_CODE.SUCCESS ->
  outcome env = Exited
  /\ trace env =
       [EvSetParam camera_resolution_field; EvSetParam camera_fps_field;
        EvSetParam depth_mode_field; EvSetParam coordinate_units_field;
        EvOpen script_config (dev_open env script_config); EvExit]
  /\ Forall (fun e => needs_open_session e = false) (trace env)
  /\ zed (final env) = Unopened.
Proof.
  intros Hopen.
  destruct (run_open_failed env Hopen) as [Hout Hfin].
  unfold trace. rewrite Hfin.
  split; [exact Hout |].
  split; [reflexivity |].
  split; [| reflexivity].
  apply Forall_not. reflexivity.
Qed.

Lemma C5_witness :
  dev_open env_open_fails script_config <> ERROR_CODE.SUCCESS
  /\ outcome env_open_fails = Exited
  /\ zed (final env_open_fails) = Unopened.
Proof.
  assert (H : dev_open env_open_fails script_config <> ERROR_CODE.SUCCESS)
    by (simpl; discriminate).
  split; [exact H |].
  destruct (C5_open_failure_exits_at_once env_open_fails H)
    as (Hout & _ & _ & Hzed).
  split; [exact Hout | exact Hzed].
Defined.




(** C7: in every run, each retrieval call on the session ([retrieve_image]
    for the left and the depth view, [retrieve_measure] for depth and point
    cloud, [get_timestamp]) comes after a [grab()] of the same run that
    returned SUCCESS. *)
Theorem C7_retrieval_only_after_successful_grab (env : Env)
    (pre post : list Event) (e : Event) :
  trace env = (pre ++ e :: post)%list ->
  is_retrieval e = true ->
  In (EvGrab ERROR_CODE.SUCCESS) pre.
Proof.
  intros Ht He.
  destruct (retrievals_guarded_sound (trace env) false pre e post
              (trace_retrievals_guarded env) Ht He) as [H | H];
    [discriminate | exact H].
Qed.

Lemma C7_witness :
  exists pre post,
    trace env_vga = (pre ++ EvGetTimestamp TIME_REFERENCE.IMAGE :: post)%list
    /\ In (EvGrab ERROR_CODE.SUCCESS) pre.
Proof.
  exists (firstn 12 (trace env_vga)), (skipn 13 (trace env_vga)).
  assert (Ht : trace env_vga
               = (firstn 12 (trace env_vga)
                    ++ EvGetTimestamp TIME_REFERENCE.IMAGE
                    :: skipn 13 (trace env_vga))%list)
    by (vm_compute; reflexivity).
  split; [exact Ht |].
  exact (C7_retrieval_only_after_successful_grab env_vga _ _ _ Ht eq_refl).
Defined.

(** C8: the four options (resolution, frame rate, depth mode, unit) are all
    assigned before [open] is called, [open] receives that fully assigned
    configuration, nothing after [open] writes a configuration field, and
    the [init_params] object still holds the same values when the run ends. *)
Theorem C8_configuration_fixed_before_open (env : Env) :
  exists post,
    trace env =
      ([EvSetParam camera_resolution_field; EvSetParam camera_fps_field;
        EvSetParam depth_mode_field; EvSetParam coordinate_units_field;
        EvOpen script_config (dev_open env script_config)] ++ post)%list
    /\ fully_assigned script_config = true
    /\ Forall (fun e => is_config_write e = false) post
    /\ init_params (final env) = script_config.
Proof.
  unfold trace.
  destruct (run_path env) as [Hno | Ho Hng | Ho Hg Hf | v e Ho Hg Hf He
                              | v s Ho Hg Hf Hs];
    unfold world_unopened, world_no_frame, world_with_frame, log,
           init_params, log_configure;
    eexists; (split; [reflexivity |]);
    (split; [reflexivity |]);
    (split; [apply Forall_not; reflexivity | reflexivity]).
Qed.

(** C9: [close()] ends the session.  In no run does any call follow
    [close()]; a run that completes leaves the session Closed with
    [close()] as its last call, the only [close()] of the run; and on a
    Closed session every session call fails and changes nothing. *)
Theorem C9_close_is_terminal (env : Env) :
  (forall pre post,
      trace env = (pre ++ EvClose :: post)%list -> post = [])
  /\ (outcome env = Ok tt ->
      zed (final env) = Closed
      /\ exists pre, trace env = (pre ++ [EvClose])%list
                     /\ Forall (fun e => is_close e = false) pre)
  /\ (forall w, zed w = Closed ->
      Camera_open env w = (Raised SessionClosedError, w)
      /\ Camera_serial_number env w = (Raised SessionClosedError, w)
      /\ Camera_grab env RuntimeParameters_default w
         = (Raised SessionClosedError, w)
      /\ (forall dst v, Camera_retrieve_image env dst v w
                        = (Raised SessionClosedError, w))
      /\ (forall dst, Camera_retrieve_measure_DEPTH env dst w
                      = (Raised SessionClosedError, w))
      /\ (forall dst, Camera_retrieve_measure_XYZRGBA env dst w
                      = (Raised SessionClosedError, w))
      /\ (forall r, Camera_get_timestamp env r w
                    = (Raised SessionClosedError, w))
      /\ Camera_close w = (Raised SessionClosedError, w)).
Proof.
  split; [| split].
  - intros pre post Heq.
    destruct (trace_close_shape env) as [[_ Hno] | (_ & _ & p0 & Hp0 & Hno)].
    + exfalso. exact (no_close_no_split _ pre post Hno Heq).
    + rewrite Hp0 in Heq. exact (close_at_end p0 pre post Hno Heq).
  - intros Hok.
    destruct (trace_close_shape env) as [[Hne _] | (_ & Hz & Hshape)].
    + contradiction.
    + split; assumption.
  - intros w Hw.
    unfold Camera_open, Camera_serial_number, Camera_grab,
           Camera_retrieve_image, Camera_retrieve_measure_DEPTH,
           Camera_retrieve_measure_XYZRGBA, Camera_get_timestamp,
           Camera_close, on_session.
    rewrite Hw. repeat split.
Qed.

Lemma C9_witness :
  outcome env_hd1080 = Ok tt /\ zed (final env_hd1080) = Closed.
Proof.
  assert (Hok : outcome env_hd1080 = Ok tt).
  { apply (run_completed env_hd1080 (ERROR_CODE.SUCCESS, depth_709));
      vm_compute; reflexivity. }
  split; [exact Hok |].
  destruct (C9_close_is_terminal env_hd1080) as (_ & Hdone & _).
  exact (proj1 (Hdone Hok)).
Defined.

(** C10: [cv2.circle] writes the left-image buffer and nothing else; on a
    run that completes, the matrix handed to [np.savetxt] is the depth the
    grab delivered, so the file holds exactly those values, while the image
    shown in the first window is the annotated one. *)
Theorem C10_annotation_leaves_depth_untouched (env : Env)
    (sample : ERROR_CODE.t * float) :
  dev_open env script_config = ERROR_CODE.SUCCESS ->
  dev_grab env = ERROR_CODE.SUCCESS ->
  sl.get_value (frame_depth (dev_frame env)) x_value y_value = inl sample ->
  files (trace env)
    = [(export_name env,
        savetxt_lines (percent_f 8) (frame_depth (dev_frame env)))]
  /\ depth_mat (final env) = frame_depth (dev_frame env)
  /\ depth_view_mat (final env) = frame_view (dev_frame env) VIEW.DEPTH
  /\ point_mat (final env) = frame_xyzrgba (dev_frame env)
  /\ image_mat (final env) = marked_image env
  /\ In (EvImshow "LEFT View" image (marked_image env)) (trace env)
  /\ (forall w center radius color thickness,
        let w' := snd (cv2_circle env image_ref center radius color
                         thickness w) in
        depth_mat w' = depth_mat w
        /\ depth_view_mat w' = depth_view_mat w
        /\ point_mat w' = point_mat w
        /\ zed w' = zed w
        /\ init_params w' = init_params w
        /\ image_mat w'
           = cv2_draw_circle env (image_mat w) center radius color
               thickness).
Proof.
  intros Ho Hg Hs.
  destruct (run_completed env sample Ho Hg Hs) as [_ Hfin].
  unfold trace. rewrite Hfin.
  unfold world_with_frame, log_completed; cbn [log depth_mat depth_view_mat
                                               point_mat image_mat].
  split; [reflexivity |].
  split; [reflexivity |].
  split; [reflexivity |].
  split; [reflexivity |].
  split; [reflexivity |].
  split.
  - unfold log_display. repeat rewrite in_app_iff.
    do 6 right. left. right. now left.
  - intros w center radius color thickness. cbv zeta.
    repeat split.
Qed.

Lemma C10_witness :
  dev_open env_hd1080 script_config = ERROR_CODE.SUCCESS
  /\ dev_grab env_hd1080 = ERROR_CODE.SUCCESS
  /\ sl.get_value (frame_depth (dev_frame env_hd1080)) x_value y_value
     = inl (ERROR_CODE.SUCCESS, depth_709)
  /\ depth_mat (final env_hd1080) = frame_depth (dev_frame env_hd1080)
  /\ pixel (frame_view (dev_frame env_hd1080) VIEW.LEFT) 1005 600
     = Some (0, 0, 0, 255)
  /\ pixel (image_mat (final env_hd1080)) 1005 600 = Some (0, 0, 255, 0)
  /\ pixel (image_mat (final env_hd1080)) 1000 600 = Some (0, 0, 0, 255).
Proof.
  assert (Hs : sl.get_value (frame_depth (dev_frame env_hd1080))
                 x_value y_value = inl (ERROR_CODE.SUCCESS, depth_709))
    by (vm_compute; reflexivity).
  split; [reflexivity |]. split; [reflexivity |]. split; [exact Hs |].
  destruct (C10_annotation_leaves_depth_untouched env_hd1080 _
              eq_refl eq_refl Hs) as (_ & Hd & _ & _ & Hi & _).
  split; [exact Hd |].
  split; [vm_compute; reflexivity |].
  rewrite Hi. split; vm_compute; reflexivity.
Defined.

(** * Further properties of the script *)

(** ** Integers and fixed-point text read back *)

Module MoreText.
Import PyText TextFacts.

Lemma chars_inj (a b : string) : chars a = chars b -> a = b.
Proof.
  revert b. induction a as [|c a IH]; intros [|d b] H; simpl in H;
    try discriminate; [reflexivity |].
  inversion H. f_equal. now apply IH.
Qed.

Lemma append_inv_tail (a b t : string) : a ++ t = b ++ t -> a = b.
Proof.
  intros H. apply chars_inj.
  apply (f_equal chars) in H. rewrite !chars_app in H.
  now apply app_inv_tail in H.
Qed.

Lemma digits_fuel_keeps_acc (fuel : nat) (n : Z) (acc : string) :
  acc <> "" -> digits_fuel fuel n acc <> "".
Proof.
  revert n acc. induction fuel as [|fuel IH]; intros n acc H; simpl;
    [assumption |].
  destruct (n <? 10); [discriminate | apply IH; discriminate].
Qed.

(** [str(n)] starts with a digit. *)
Lemma str_nat_head (n : Z) :
  exists c rest, str_nat n = String c rest /\ is_digit c = true.
Proof.
  pose proof (str_nat_digits n) as Hd.
  destruct (str_nat n) as [|c rest] eqn:E.
  - exfalso. unfold str_nat in E. cbn [digits_fuel] in E.
    destruct (n <? 10); [discriminate |].
    revert E. apply digits_fuel_keeps_acc. discriminate.
  - exists c, rest. split; [reflexivity |]. now inversion Hd.
Qed.

Lemma str_nat_inj (a b : Z) :
  0 <= a -> 0 <= b -> str_nat a = str_nat b -> a = b.
Proof.
  intros Ha Hb H.
  rewrite <- (str_nat_value a Ha), <- (str_nat_value b Hb). now rewrite H.
Qed.

(** Different integers print differently. *)
Lemma str_int_inj (a b : Z) : str_int a = str_int b -> a = b.
Proof.
  unfold str_int.
  destruct (a <? 0) eqn:Ea, (b <? 0) eqn:Eb; intros H.
  - apply Z.ltb_lt in Ea, Eb. inversion H as [H'].
    apply str_nat_inj in H'; lia.
  - destruct (str_nat_head b) as (c & rest & E & Hc).
    rewrite E in H. inversion H; subst c. discriminate Hc.
  - destruct (str_nat_head a) as (c & rest & E & Hc).
    rewrite E in H. inversion H; subst c. discriminate Hc.
  - apply Z.ltb_ge in Ea, Eb. now apply str_nat_inj.
Qed.

Lemma digits_value_aux_app (a b : string) (acc : Z) :
  digits_value_aux (a ++ b) acc = digits_value_aux b (digits_value_aux a acc).
Proof.
  revert acc. induction a as [|c a IH]; intros acc; simpl;
    [reflexivity | apply IH].
Qed.

(** Zero-padded digits read back as the number they were made from. *)
Lemma pad_digits_value (k : nat) :
  forall n, 0 <= n < 10 ^ Z.of_nat k -> digits_value (pad_digits k n) = n.
Proof.
  unfold digits_value.
  induction k as [|k IH]; intros n Hn.
  - simpl in *. lia.
  - cbn [pad_digits]. rewrite digits_value_aux_app, IH.
    + cbn [digits_value_aux].
      rewrite digit_char_value by (apply Z.mod_pos_bound; lia).
      pose proof (Z.div_mod n 10). lia.
    + rewrite Nat2Z.inj_succ, Z.pow_succ_r in Hn by lia.
      split; [apply Z.div_pos; lia | apply Z.div_lt_upper_bound; lia].
Qed.

End MoreText.

Module MoreFloat.
Import PyText PyFloat TextFacts FloatFacts Readback MoreText.

Lemma split_point_digits (whole frac : string) :
  all_digits whole ->
  split_point (whole ++ "." ++ frac) = (whole, frac).
Proof.
  unfold all_digits.
  induction whole as [|c whole IH]; intros H; simpl; [reflexivity |].
  inversion H as [|? ? Hc Hrest]; subst.
  destruct (Ascii.eqb c ".") eqn:E.
  - apply Ascii.eqb_eq in E. subst c. discriminate Hc.
  - change (split_point (whole ++ String "."%char frac))
      with (split_point (whole ++ "." ++ frac)).
    now rewrite IH.
Qed.

Lemma magnitude_nonneg (m e : Z) : (0 <= magnitude m e)%Q.
Proof.
  unfold magnitude, pow2.
  apply Qmult_le_0_compat.
  - change 0%Q with (inject_Z 0). rewrite <- Zle_Qle. apply Z.abs_nonneg.
  - apply Qpower_0_le. discriminate.
Qed.

Lemma round_half_even_nonneg (q : Q) : (0 <= q)%Q -> 0 <= round_half_even q.
Proof.
  intros Hq. unfold round_half_even. cbv zeta.
  assert (Hf : 0 <= Qfloor q).
  { change 0 with (Qfloor 0). now apply Qfloor_resp_le. }
  destruct (Qcompare (q - inject_Z (Qfloor q)) (1 # 2));
    [destruct (Z.even (Qfloor q)) | |]; lia.
Qed.

(** The text of a non-negative number of hundred-millionths reads back as
    that number. *)
Lemma read_unsigned_fixed8 (scaled : Z) :
  0 <= scaled ->
  (read_unsigned (str_nat (scaled / 100000000) ++ "."
                    ++ pad_digits 8 (scaled mod 100000000))
   == inject_Z scaled / inject_Z 100000000)%Q.
Proof.
  intros Hs. unfold read_unsigned.
  rewrite split_point_digits by apply str_nat_digits.
  rewrite pad_digits_length.
  rewrite str_nat_value by (apply Z.div_pos; lia).
  rewrite pad_digits_value by (apply Z.mod_pos_bound; lia).
  change (10 ^ Z.of_nat 8) with 100000000.
  rewrite (Z.div_mod scaled 100000000) at 3 by lia.
  rewrite inject_Z_plus, inject_Z_mult.
  field.
Qed.

(** What [%.8f] writes for a finite value reads back within half a unit
    of the eighth decimal. *)
Lemma format_f8_precision (m e : Z) :
  (Qabs (read_fixed (format_f 8 (F_fin m e)) - exact m e)
   <= 1 # 200000000)%Q.
Proof.
  unfold format_f. change (10 ^ Z.of_nat 8) with 100000000.
  set (scaled := round_half_even (magnitude m e * inject_Z 100000000)).
  assert (Hs : 0 <= scaled).
  { apply round_half_even_nonneg.
    apply Qmult_le_0_compat; [apply magnitude_nonneg | discriminate]. }
  pose proof (read_unsigned_fixed8 scaled Hs) as Hread.
  pose proof (round_half_even_near (magnitude m e * inject_Z 100000000))
    as Hnear.
  fold scaled in Hnear. apply Qabs_Qle_condition in Hnear.
  apply Qabs_Qle_condition.
  set (text := str_nat (scaled / 100000000) ++ "."
                 ++ pad_digits 8 (scaled mod 100000000)) in *.
  change (inject_Z 100000000) with (100000000 # 1)%Q in *.
  unfold exact.
  destruct (m <? 0) eqn:Em.
  - apply Z.ltb_lt in Em.
    change (read_fixed ("-" ++ text)) with (- read_unsigned text)%Q.
    assert (Hm : (inject_Z m * pow2 e == - magnitude m e)%Q).
    { unfold magnitude. rewrite Z.abs_neq by lia.
      rewrite inject_Z_opp. ring. }
    remember (read_unsigned text) as r.
    remember (magnitude m e) as mag.
    remember (inject_Z m * pow2 e)%Q as ex.
    remember (inject_Z scaled) as S.
    destruct Hnear as [Hlo Hhi].
    assert (HS : (S == r * (100000000 # 1))%Q) by (rewrite Hread; field).
    split; lra.
  - apply Z.ltb_ge in Em.
    assert (Hm : (inject_Z m * pow2 e == magnitude m e)%Q).
    { unfold magnitude. rewrite Z.abs_eq by lia. reflexivity. }
    assert (Hr : read_fixed ("" ++ text) = read_unsigned text).
    { cbn [append]. unfold text.
      destruct (str_nat_head (scaled / 100000000)) as (c & rest & -> & Hc).
      cbn [append read_fixed].
      destruct (Ascii.eqb c "-") eqn:E; [| reflexivity].
      apply Ascii.eqb_eq in E. subst c. discriminate Hc. }
    rewrite Hr.
    remember (read_unsigned text) as r.
    remember (magnitude m e) as mag.
    remember (inject_Z m * pow2 e)%Q as ex.
    remember (inject_Z scaled) as S.
    destruct Hnear as [Hlo Hhi].
    assert (HS : (S == r * (100000000 # 1))%Q) by (rewrite Hread; field).
    split; lra.
Qed.

End MoreFloat.

(** ** Runs *)

Import Readback MoreText MoreFloat.

(** X1: whenever [open] succeeds and [grab] answers any code other than
    SUCCESS, the script calls [grab] once only, still reads the four buffers
    and the depth metadata, and stops with IndexError at
    [depth_data[0][0]]: no file is written, [close] is never called and the
    session stays open. *)
Theorem X1_failed_grab_stops_at_first_entry (env : Env) :
  dev_open env script_config = ERROR_CODE.SUCCESS ->
  dev_grab env <> ERROR_CODE.SUCCESS ->
  outcome env = Raised IndexError
  /\ filter is_grab (trace env) = [EvGrab (dev_grab env)]
  /\ filter uses_frame (trace env)
     = [EvGetData image; EvGetData depth; EvGetData depth_view;
        EvGetData point; EvMatInfo depth; EvMatInfo depth; EvMatInfo depth;
        EvMatInfo depth]
  /\ files (trace env) = []
  /\ filter is_close (trace env) = []
  /\ zed (final env) = Opened.
Proof.
  intros Ho Hg.
  destruct (run_grab_failed env Ho Hg) as [Hout Hfin].
  unfold trace. rewrite Hfin.
  split; [exact Hout |]. repeat split.
Qed.

Lemma X1_witness :
  dev_open env_grab_fails script_config = ERROR_CODE.SUCCESS
  /\ dev_grab env_grab_fails <> ERROR_CODE.SUCCESS
  /\ outcome env_grab_fails = Raised IndexError
  /\ files (trace env_grab_fails) = [].
Proof.
  assert (Hg : dev_grab env_grab_fails <> ERROR_CODE.SUCCESS)
    by (simpl; discriminate).
  split; [reflexivity |]. split; [exact Hg |].
  destruct (X1_failed_grab_stops_at_first_entry env_grab_fails eq_refl Hg)
    as (Ho & _ & _ & Hf & _).
  split; [exact Ho | exact Hf].
Defined.

(** X2: a run reaches its end exactly when [open] succeeds, [grab]
    succeeds and the sampler returns a pair for pixel (1000, 600). *)
Theorem X2_completes_iff (env : Env) :
  outcome env = Ok tt
  <-> (dev_open env script_config = ERROR_CODE.SUCCESS
       /\ dev_grab env = ERROR_CODE.SUCCESS
       /\ exists sample,
            sl.get_value (frame_depth (dev_frame env)) x_value y_value
              = inl sample).
Proof.
  split.
  - destruct (run_path env) as [Hno | Ho Hng | Ho Hg Hf | v e Ho Hg Hf He
                                | v s Ho Hg Hf Hs]; try discriminate.
    intros _. split; [exact Ho |]. split; [exact Hg |]. now exists s.
  - intros (Ho & Hg & sample & Hs).
    exact (proj1 (run_completed env sample Ho Hg Hs)).
Qed.

(** X3: a run that reaches its end has written exactly one file, the
    depth export; a run that ends any other way has written none. *)
Theorem X3_file_written_iff_completed (env : Env) :
  (outcome env = Ok tt ->
   files (trace env)
     = [(export_name env,
         savetxt_lines (percent_f 8) (frame_depth (dev_frame env)))])
  /\ (outcome env <> Ok tt -> files (trace env) = []).
Proof.
  unfold trace.
  destruct (run_path env) as [Hno | Ho Hng | Ho Hg Hf | v e Ho Hg Hf He
                              | v s Ho Hg Hf Hs];
    unfold world_unopened, world_no_frame, world_with_frame, log;
    (split; [intros H | intros H]); try discriminate; try reflexivity;
    try congruence.
Qed.

(** X4: [zed.close()] is the last statement and nothing guards it: a run
    that does not reach its end never calls [close], and once [open] has
    succeeded such a run leaves the session Opened or Grabbed. *)
Theorem X4_session_left_open_on_failure (env : Env) :
  outcome env <> Ok tt ->
  filter is_close (trace env) = []
  /\ zed (final env) <> Closed
  /\ (dev_open env script_config = ERROR_CODE.SUCCESS ->
      zed (final env) = Opened \/ zed (final env) = Grabbed).
Proof.
  unfold trace.
  destruct (run_path env) as [Hno | Ho Hng | Ho Hg Hf | v e Ho Hg Hf He
                              | v s Ho Hg Hf Hs];
    unfold world_unopened, world_no_frame, world_with_frame, log, zed;
    intros H; try congruence;
    (split; [reflexivity |]); (split; [discriminate |]); intros Ho';
    try contradiction; auto.
Qed.

Lemma X4_witness :
  outcome env_vga <> Ok tt
  /\ filter is_close (trace env_vga) = []
  /\ zed (final env_vga) = Grabbed.
Proof.
  assert (H : outcome env_vga <> Ok tt) by (vm_compute; discriminate).
  split; [exact H |].
  destruct (X4_session_left_open_on_failure env_vga H) as (Hc & _ & _).
  split; [exact Hc | vm_compute; reflexivity].
Defined.

(** X5: the ways a run fails.  It exits exactly when [open] fails; it
    raises IndexError exactly when [open] succeeded and either [grab] failed
    or the depth matrix has no entry [0][0]; the [None] that [timestamp]
    holds after a failed grab is never dereferenced (no AttributeError), and
    no call is made on a closed session; IndexError and RangeError are the
    only exceptions. *)
Theorem X5_how_a_run_can_fail (env : Env) :
  (outcome env = Exited
   <-> dev_open env script_config <> ERROR_CODE.SUCCESS)
  /\ (outcome env = Raised IndexError
      <-> dev_open env script_config = ERROR_CODE.SUCCESS
          /\ (dev_grab env <> ERROR_CODE.SUCCESS
              \/ first_entry (frame_depth (dev_frame env)) = None))
  /\ outcome env <> Raised AttributeError
  /\ outcome env <> Raised SessionClosedError
  /\ (outcome env = Ok tt \/ outcome env = Exited
      \/ outcome env = Raised IndexError \/ outcome env = Raised RangeError).
Proof.
  destruct (run_path env) as [Hno | Ho Hng | Ho Hg Hf | v e Ho Hg Hf He
                              | v s Ho Hg Hf Hs].
  - repeat split; try discriminate; try tauto; intuition congruence.
  - repeat split; try discriminate; try tauto; intuition congruence.
  - repeat split; try discriminate; try tauto; intuition congruence.
  - rewrite (get_value_failed _ _ _ _ He).
    repeat split; try discriminate; try tauto; intuition congruence.
  - repeat split; try discriminate; try tauto; intuition congruence.
Qed.

(** X6: every run calls [open] exactly once, with the configuration of
    the script; [grab] is called once when [open] succeeded and not at all
    otherwise. *)
Theorem X6_one_open_and_no_second_grab (env : Env) :
  filter is_open (trace env)
    = [EvOpen script_config (dev_open env script_config)]
  /\ filter is_grab (trace env)
     = (if ERROR_CODE.eqb (dev_open env script_config) ERROR_CODE.SUCCESS
        then [EvGrab (dev_grab env)] else []).
Proof.
  unfold trace.
  destruct (run_path env) as [Hno | Ho Hng | Ho Hg Hf | v e Ho Hg Hf He
                              | v s Ho Hg Hf Hs];
    unfold world_unopened, world_no_frame, world_with_frame, log,
           log_configure;
    try (rewrite Ho; split; reflexivity).
  split; [reflexivity |].
  destruct (dev_open env script_config); try reflexivity. congruence.
Qed.

(** X7: two frames are exported under the same file name exactly when
    their capture timestamps agree in milliseconds. *)
Theorem X7_file_name_tells_the_millisecond (env1 env2 : Env) :
  export_name env1 = export_name env2
  <-> milliseconds (frame_timestamp (dev_frame env1))
      = milliseconds (frame_timestamp (dev_frame env2)).
Proof.
  unfold export_name. split.
  - intros H. apply append_inv_tail in H. now apply str_int_inj.
  - intros H. now rewrite H.
Qed.

(** X8: in a run that reaches its end, the field of the export that
    belongs to a finite entry at column [x] of row [y], read back as a
    decimal number, differs from the entry by at most half a unit of the
    eighth decimal. *)
Theorem X8_exported_entry_precision (env : Env)
    (sample : ERROR_CODE.t * float) (x y m e : Z) :
  dev_open env script_config = ERROR_CODE.SUCCESS ->
  dev_grab env = ERROR_CODE.SUCCESS ->
  sl.get_value (frame_depth (dev_frame env)) x_value y_value = inl sample ->
  pixel (frame_depth (dev_frame env)) x y = Some (F_fin m e) ->
  exists lines line field,
    files (trace env) = [(export_name env, lines)]
    /\ nth_error lines (Z.to_nat y) = Some line
    /\ nth_error (split_space line) (Z.to_nat x) = Some field
    /\ (Qabs (read_fixed field - exact m e) <= 1 # 200000000)%Q.
Proof.
  intros Ho Hg Hs Hp.
  destruct (run_completed env sample Ho Hg Hs) as [_ Hfin].
  destruct (exported_entry _ _ _ _ Hp) as (line & Hline & Hfield).
  exists (savetxt_lines (percent_f 8) (frame_depth (dev_frame env))), line,
         (format_f 8 (F_fin m e)).
  unfold trace. rewrite Hfin. unfold world_with_frame. cbn [log].
  split; [apply files_completed |].
  split; [exact Hline |]. split; [exact Hfield |].
  apply format_f8_precision.
Qed.

Lemma X8_witness :
  dev_open env_hd1080 script_config = ERROR_CODE.SUCCESS
  /\ dev_grab env_hd1080 = ERROR_CODE.SUCCESS
  /\ sl.get_value (frame_depth (dev_frame env_hd1080)) x_value y_value
     = inl (ERROR_CODE.SUCCESS, depth_709)
  /\ pixel (frame_depth (dev_frame env_hd1080)) 1919 1079
     = Some (F_fin 11629993 (-14))
  /\ exists lines line field,
       files (trace env_hd1080) = [(export_name env_hd1080, lines)]
       /\ nth_error lines (Z.to_nat 1079) = Some line
       /\ nth_error (split_space line) (Z.to_nat 1919) = Some field
       /\ (Qabs (read_fixed field - exact 11629993 (-14))
           <= 1 # 200000000)%Q.
Proof.
  assert (Hs : sl.get_value (frame_depth (dev_frame env_hd1080))
                 x_value y_value = inl (ERROR_CODE.SUCCESS, depth_709))
    by (vm_compute; reflexivity).
  assert (Hp : pixel (frame_depth (dev_frame env_hd1080)) 1919 1079
               = Some (F_fin 11629993 (-14)))
    by (vm_compute; reflexivity).
  split; [reflexivity |]. split; [reflexivity |].
  split; [exact Hs |]. split; [exact Hp |].
  exact (X8_exported_entry_precision env_hd1080 _ 1919 1079 _ _
           eq_refl eq_refl Hs Hp).
Defined.

(** X9: whatever the depth at pixel (1000, 600) is, the sample line of a
    completed run shows [repr] of the matrix entry of column 1000, row 600,
    and field 1000 of line 600 of the export is the [%.8f] rendering of that
    same entry. *)
Theorem X9_sample_line_and_entry_show_one_value (env : Env)
    (status : ERROR_CODE.t) (v : float) :
  dev_open env script_config = ERROR_CODE.SUCCESS ->
  dev_grab env = ERROR_CODE.SUCCESS ->
  sl.get_value (frame_depth (dev_frame env)) x_value y_value
    = inl (status, v) ->
  pixel (frame_depth (dev_frame env)) 1000 600 = Some v
  /\ In ("The depth of the 1000 600 is (" ++ ERROR_CODE.repr status ++ ", "
           ++ PyFloat.repr v ++ ")")
        (stdout (trace env))
  /\ exists lines line,
       files (trace env) = [(export_name env, lines)]
       /\ nth_error lines 600 = Some line
       /\ nth_error (split_space line) 1000 = Some (format_f 8 v).
Proof.
  intros Ho Hg Hs.
  destruct (run_completed env _ Ho Hg Hs) as [_ Hfin].
  apply get_value_returned in Hs. destruct Hs as (_ & Hp & _).
  unfold trace. rewrite Hfin. unfold world_with_frame. cbn [log].
  split; [exact Hp |]. split.
  - exact (stdout_completed env (status, v)).
  - destruct (exported_entry _ _ _ _ Hp) as (line & Hline & Hfield).
    exists (savetxt_lines (percent_f 8) (frame_depth (dev_frame env))), line.
    split; [apply files_completed |]. split; [exact Hline | exact Hfield].
Qed.

Lemma X9_witness :
  dev_open env_hd1080_nan script_config = ERROR_CODE.SUCCESS
  /\ dev_grab env_hd1080_nan = ERROR_CODE.SUCCESS
  /\ sl.get_value (frame_depth (dev_frame env_hd1080_nan)) x_value y_value
     = inl (ERROR_CODE.SUCCESS, F_nan)
  /\ In "The depth of the 1000 600 is (SUCCESS, nan)"
        (stdout (trace env_hd1080_nan))
  /\ exists lines line,
       files (trace env_hd1080_nan) = [(export_name env_hd1080_nan, lines)]
       /\ nth_error lines 600 = Some line
       /\ nth_error (split_space line) 1000 = Some "nan".
Proof.
  assert (Hs : sl.get_value (frame_depth (dev_frame env_hd1080_nan))
                 x_value y_value = inl (ERROR_CODE.SUCCESS, F_nan))
    by (vm_compute; reflexivity).
  split; [reflexivity |]. split; [reflexivity |]. split; [exact Hs |].
  exact (proj2 (X9_sample_line_and_entry_show_one_value env_hd1080_nan
                  _ _ eq_refl eq_refl Hs)).
Defined.

(** X10: for a depth matrix of any size with at least one column, the
    export of a completed run has one line per row and every line splits at
    its spaces into the [%.8f] renderings of that row, in order. *)
Theorem X10_export_reads_back_row_by_row (env : Env)
    (sample : ERROR_CODE.t * float) (w h : Z) :
  dev_open env script_config = ERROR_CODE.SUCCESS ->
  dev_grab env = ERROR_CODE.SUCCESS ->
  sl.get_value (frame_depth (dev_frame env)) x_value y_value = inl sample ->
  has_size (frame_depth (dev_frame env)) w h = true ->
  0 < w ->
  exists lines,
    files (trace env) = [(export_name env, lines)]
    /\ Z.of_nat (List.length lines) = h
    /\ map split_space lines
       = map (map (format_f 8)) (frame_depth (dev_frame env)).
Proof.
  intros Ho Hg Hs Hsize Hw.
  destruct (run_completed env sample Ho Hg Hs) as [_ Hfin].
  destruct (has_size_rows _ _ _ Hsize) as [Hh Hrows].
  exists (savetxt_lines (percent_f 8) (frame_depth (dev_frame env))).
  unfold trace. rewrite Hfin. unfold world_with_frame. cbn [log].
  split; [apply files_completed |].
  split; [now rewrite savetxt_lines_length |].
  unfold savetxt_lines. rewrite map_map.
  apply map_ext_in. intros row Hin.
  rewrite Forall_forall in Hrows.
  apply exported_line_fields.
  intros ->. specialize (Hrows [] Hin). simpl in Hrows. lia.
Qed.

Lemma X10_witness :
  dev_open env_hd720 script_config = ERROR_CODE.SUCCESS
  /\ dev_grab env_hd720 = ERROR_CODE.SUCCESS
  /\ sl.get_value (frame_depth (dev_frame env_hd720)) x_value y_value
     = inl (ERROR_CODE.SUCCESS, depth_709)
  /\ has_size (frame_depth (dev_frame env_hd720)) 1280 720 = true
  /\ exists lines,
       files (trace env_hd720) = [(export_name env_hd720, lines)]
       /\ Z.of_nat (List.length lines) = 720
       /\ map split_space lines
          = map (map (format_f 8)) (frame_depth (dev_frame env_hd720)).
Proof.
  assert (Hs : sl.get_value (frame_depth (dev_frame env_hd720))
                 x_value y_value = inl (ERROR_CODE.SUCCESS, depth_709))
    by (vm_compute; reflexivity).
  assert (Hsize : has_size (frame_depth (dev_frame env_hd720)) 1280 720
                  = true)
    by (vm_compute; reflexivity).
  split; [reflexivity |]. split; [reflexivity |].
  split; [exact Hs |]. split; [exact Hsize |].
  exact (X10_export_reads_back_row_by_row env_hd720 _ 1280 720
           eq_refl eq_refl Hs Hsize ltac:(lia)).
Defined.

(** X11: a completed run shows exactly two windows, first "LEFT View"
    with the annotated image, then "Depth View" with the depth rendering as
    retrieved; a run that ends any other way shows no window. *)
Theorem X11_windows_only_after_the_sample (env : Env) :
  (outcome env = Ok tt ->
   filter is_imshow (trace env)
     = [EvImshow "LEFT View" image (marked_image env);
        EvImshow "Depth View" depth_view
          (frame_view (dev_frame env) VIEW.DEPTH)])
  /\ (outcome env <> Ok tt -> filter is_imshow (trace env) = []).
Proof.
  unfold trace.
  destruct (run_path env) as [Hno | Ho Hng | Ho Hg Hf | v e Ho Hg Hf He
                              | v s Ho Hg Hf Hs];
    unfold world_unopened, world_no_frame, world_with_frame, log;
    (split; [intros H | intros H]); try discriminate; try reflexivity;
    try congruence.
Qed.

(** X12: a failed [open] ends the script silently: nothing has been
    printed and, [exit()] being called without an argument, the exit status
    is 0, the status of a run that reaches its end; the status is 1 exactly
    when the run stops with an exception.  Whenever [open] succeeded the
    first printed line is the greeting with the serial number. *)
Theorem X12_failed_open_is_silent (env : Env) :
  (dev_open env script_config <> ERROR_CODE.SUCCESS ->
   stdout (trace env) = [] /\ exit_status (outcome env) = 0)
  /\ (dev_open env script_config = ERROR_CODE.SUCCESS ->
      exists rest,
        stdout (trace env)
          = ("Hello! This is my serial number: "
               ++ str_int (dev_serial_number env)) :: rest)
  /\ (exit_status (outcome env) = 0
      <-> outcome env = Ok tt
          \/ dev_open env script_config <> ERROR_CODE.SUCCESS)
  /\ (exit_status (outcome env) = 1 <-> exists e, outcome env = Raised e).
Proof.
  unfold trace.
  destruct (run_path env) as [Hno | Ho Hng | Ho Hg Hf | v e Ho Hg Hf He
                              | v s Ho Hg Hf Hs];
    unfold world_unopened, world_no_frame, world_with_frame, log;
    cbn [exit_status].
  - split; [intros _; split; reflexivity |].
    split; [intros H; contradiction |].
    split; [split; [intros _; now right | reflexivity] |].
    split; [discriminate | intros [e H]; discriminate].
  - split; [intros H; contradiction |].
    split; [intros _; eexists; reflexivity |].
    split; [split; [discriminate |] |].
    + intros [H | H]; [discriminate | contradiction].
    + split; [intros _; eexists; reflexivity | reflexivity].
  - split; [intros H; contradiction |].
    split; [intros _; eexists; reflexivity |].
    split; [split; [discriminate |] |].
    + intros [H | H]; [discriminate | contradiction].
    + split; [intros _; eexists; reflexivity | reflexivity].
  - split; [intros H; contradiction |].
    split; [intros _; eexists; reflexivity |].
    split; [split; [discriminate |] |].
    + intros [H | H]; [discriminate | contradiction].
    + split; [intros _; eexists; reflexivity | reflexivity].
  - split; [intros H; contradiction |].
    split; [intros _; eexists; reflexivity |].
    split; [split; [intros _; now left | reflexivity] |].
    split; [discriminate | intros [e H]; discriminate].
Qed.
